(** * The Python binding of Random Cut Forest, checked against its specification

    The binding ([python_rcf_wrapper]) is a thin layer over the Java engine:
    [rcf_model.py] wraps [com.amazon.randomcutforest.RandomCutForest] and
    [trcf_model.py] wraps
    [com.amazon.randomcutforest.parkservices.ThresholdedRandomCutForest].

    The development has three layers.
    - Python values and the numpy calls the binding makes ([Float], [Numpy]).
    - The binding itself, method by method, as programs that issue calls to
      the Java object held in [self.forest] ([RandomCutForestModel],
      [TRandomCutForestModel]).
    - The engine behind those calls.  Its Java sources are not part of the
      binding; the engine is modelled from the specification ([Engine]). *)

From Stdlib Require Import ZArith List Bool Lia Sorted Permutation.
From Stdlib Require Import SpecFloat PrimFloat FloatOps.
Import ListNotations.
Local Open Scope Z_scope.
Set Implicit Arguments.

(* ===================================================================== *)
(** ** Python floats: IEEE 754 binary64 *)
(* ===================================================================== *)

Module Float.

Definition float : Type := spec_float.

Definition prec : Z := 53.
Definition emax : Z := 1024.

Definition nan : float := S754_nan.
Definition zero : float := S754_zero false.

Definition add : float -> float -> float := SFadd prec emax.
Definition mul : float -> float -> float := SFmul prec emax.
Definition div : float -> float -> float := SFdiv prec emax.
Definition leb : float -> float -> bool := SFleb.

(** [math.isnan] / [np.isnan] on one value. *)
Definition isnan (x : float) : bool :=
  match x with S754_nan => true | _ => false end.

(** [x == 0.0] (both signed zeros). *)
Definition is_zero (x : float) : bool :=
  match x with S754_zero _ => true | _ => false end.

Definition is_inf (x : float) : bool :=
  match x with S754_infinity _ => true | _ => false end.

(** The correctly rounded (half-even) binary64 value of an integer. *)
Definition of_Z (z : Z) : float := binary_normalize prec emax z 0 false.

(** Python's [0.0 <= x]. *)
Definition nonneg (x : float) : bool := leb zero x.

(** The floats at or above zero: a zero, a positive finite number or plus
    infinity. *)
Definition not_below_zero (x : float) : Prop :=
  match x with
  | S754_zero _ | S754_infinity false | S754_finite false _ _ => True
  | _ => False
  end.

(** The float literals of the two source files, each the double nearest to
    its decimal as Python reads it. *)
#[local] Set Warnings "-inexact-float".
Definition lit_0_0001 : float := Eval vm_compute in Prim2SF 0.0001%float.
Definition lit_0_005 : float := Eval vm_compute in Prim2SF 0.005%float.
Definition lit_2_5 : float := Eval vm_compute in Prim2SF 2.5%float.
Definition lit_0_5 : float := Eval vm_compute in Prim2SF 0.5%float.
Definition lit_1_0 : float := Eval vm_compute in Prim2SF 1.0%float.
#[local] Set Warnings "+inexact-float".

(** Two more values, for the coordinates of example points. *)
Definition lit_2_0 : float := Eval vm_compute in Prim2SF 2.0%float.
Definition lit_3_0 : float := Eval vm_compute in Prim2SF 3.0%float.

End Float.

Abbreviation float := Float.float.

(** A point is a Python list of floats. *)
Definition Point : Type := list float.

(* ===================================================================== *)
(** ** Outcomes of a call: a value or a raised exception *)
(* ===================================================================== *)

(** The error taxonomy of the engine (spec, section 7), as surfaced through
    [jpype.JException]. *)
Inductive JavaError : Type :=
| ConfigurationError
| DimensionMismatchError
| InsufficientDataError
| NumericError
| UnsupportedOperation.

Inductive Exception : Type :=
| IndexError                        (* [xs[0]] on an empty list *)
| ZeroDivisionError                 (* float division by zero *)
| OverflowError                     (* int too large to convert to float *)
| JException (e : JavaError).       (* raised inside the JVM *)

Inductive Outcome (A : Type) : Type :=
| Normal (a : A)
| Thrown (e : Exception).
Arguments Normal {A} a.
Arguments Thrown {A} e.

Definition outcome_bind {A B} (o : Outcome A) (k : A -> Outcome B) : Outcome B :=
  match o with
  | Normal a => k a
  | Thrown e => Thrown e
  end.

(* ===================================================================== *)
(** ** Programs over the methods of a Java object *)
(* ===================================================================== *)

(** A method of the binding is a small program: it computes on Python values
    and calls methods of the Java object in [self.forest].  [E X] is the
    family of calls that answer with an [X]. *)
Inductive Prog (E : Type -> Type) (R : Type) : Type :=
| Ret (r : R)
| Raise (e : Exception)
| Call (X : Type) (c : E X) (k : X -> Prog E R).
Arguments Ret {E R} r.
Arguments Raise {E R} e.
Arguments Call {E R X} c k.

Fixpoint bind {E A B} (m : Prog E A) (f : A -> Prog E B) : Prog E B :=
  match m with
  | Ret a => f a
  | Raise e => Raise e
  | Call c k => Call c (fun x => bind (k x) f)
  end.

Definition call {E X} (c : E X) : Prog E X := Call c Ret.

Declare Scope prog_scope.
Delimit Scope prog_scope with prog.
Notation "x <- m ;; k" := (bind m (fun x => k))
  (at level 61, m at next level, right associativity) : prog_scope.
Notation "m ;; k" := (bind m (fun _ => k))
  (at level 61, right associativity) : prog_scope.

(** The Java side answers each call from its state [S], and leaves a state
    behind whether it returns or throws. *)
Definition Handler (E : Type -> Type) (S : Type) : Type :=
  forall X, E X -> S -> Outcome X * S.

Fixpoint run {E S R} (h : Handler E S) (m : Prog E R) (s : S) : Outcome R * S :=
  match m with
  | Ret r => (Normal r, s)
  | Raise e => (Thrown e, s)
  | Call c k =>
      match h _ c s with
      | (Normal x, s') => run h (k x) s'
      | (Thrown e, s') => (Thrown e, s')
      end
  end.

(* ===================================================================== *)
(** ** numpy, as far as [impute] uses it *)
(* ===================================================================== *)

Module Numpy.

(** [np.isnan(point)]: the element-wise mask. *)
Definition isnan (point : Point) : list bool := map Float.isnan point.

(** [mask.sum()]: the number of [True] entries. *)
Fixpoint sum (mask : list bool) : Z :=
  match mask with
  | [] => 0
  | b :: rest => (if b then 1 else 0) + sum rest
  end.

(** [np.argwhere(mask).flatten()]: the positions of the [True] entries, in
    increasing order. *)
Fixpoint argwhere_from (i : Z) (mask : list bool) : list Z :=
  match mask with
  | [] => []
  | b :: rest =>
      if b then i :: argwhere_from (i + 1) rest
      else argwhere_from (i + 1) rest
  end.

Definition argwhere (mask : list bool) : list Z := argwhere_from 0 mask.

End Numpy.

(* ===================================================================== *)
(** ** The Java classes, as the binding sees them *)
(* ===================================================================== *)

(** Left-to-right chaining of builder calls: [b .> numberOfTrees n] is
    [b.numberOfTrees(n)]. *)
Notation "b '.>' s" := (cons s b) (at level 50, left associativity, only parsing).

(** Modelled from the spec: the builder and the method signatures of
    [com.amazon.randomcutforest.RandomCutForest], whose Java sources are not
    in the binding.  A builder is the record of the setter calls made on it,
    most recent first; a setter mutates the builder and returns it, so a call
    whose result is discarded ([builder.threadPoolSize(n)]) is kept all the
    same. *)
Module RandomCutForest.

Inductive Setting : Type :=
| numberOfTrees (n : Z)
| sampleSize (n : Z)
| dimensions (n : Z)
| storeSequenceIndexesEnabled (b : bool)
| centerOfMassEnabled (b : bool)
| parallelExecutionEnabled (b : bool)
| timeDecay (x : float)
| outputAfter (n : Z)
| threadPoolSize (n : Z)
| randomSeed (n : Z).

Definition Builder : Type := list Setting.

(** [RandomCutForest.builder()]. *)
Definition builder : Builder := [].

(** The value a builder holds for one parameter: that of the latest call of
    its setter, if any. *)
Fixpoint configured {A} (read : Setting -> option A) (b : Builder) : option A :=
  match b with
  | [] => None
  | s :: older =>
      match read s with
      | Some v => Some v
      | None => configured read older
      end
  end.

Definition get_numberOfTrees s := match s with numberOfTrees n => Some n | _ => None end.
Definition get_sampleSize s := match s with sampleSize n => Some n | _ => None end.
Definition get_dimensions s := match s with dimensions n => Some n | _ => None end.
Definition get_storeSequenceIndexesEnabled s :=
  match s with storeSequenceIndexesEnabled b => Some b | _ => None end.
Definition get_centerOfMassEnabled s :=
  match s with centerOfMassEnabled b => Some b | _ => None end.
Definition get_parallelExecutionEnabled s :=
  match s with parallelExecutionEnabled b => Some b | _ => None end.
Definition get_timeDecay s := match s with timeDecay x => Some x | _ => None end.
Definition get_outputAfter s := match s with outputAfter n => Some n | _ => None end.
Definition get_threadPoolSize s := match s with threadPoolSize n => Some n | _ => None end.
Definition get_randomSeed s := match s with randomSeed n => Some n | _ => None end.

(** The instance methods the binding calls, each with the type of its
    answer. *)
Inductive Method : Type -> Type :=
| getAnomalyScore (point : Point) : Method float
| update (point : Point) : Method unit
| imputeMissingValues (point : Point) (numberOfMissingValues : Z)
    (missingIndexes : list Z) : Method (list float)
| extrapolateBasic (point : Point) (horizon blockSize : Z) (cyclic : bool)
    (shingleIndex : Z) : Method (list float)
| getDimensions : Method Z.

End RandomCutForest.

(** Modelled from the spec: [AnomalyDescriptor], the result of one call of
    [process] (spec, section 3). *)
Record AnomalyDescriptor : Type := {
  score_of : float;
  grade_of : float;
  threshold_of : float;
  low_of : list float;
  high_of : list float;
  expectedValue_of : list float
}.

(** Modelled from the spec: the builder and the method signatures of
    [com.amazon.randomcutforest.parkservices.ThresholdedRandomCutForest]. *)
Module ThresholdedRandomCutForest.

Inductive Precision : Type := FLOAT_32 | FLOAT_64.
Inductive TransformMethod : Type := NONE | DIFFERENCE | NORMALIZE.

Inductive Setting : Type :=
| dimensions (n : Z)
| sampleSize (n : Z)
| numberOfTrees (n : Z)
| timeDecay (x : float)
| initialAcceptFraction (x : float)
| parallelExecutionEnabled (b : bool)
| compact (b : bool)
| precision (p : Precision)
| boundingBoxCacheFraction (x : float)
| shingleSize (n : Z)
| anomalyRate (x : float)
| outputAfter (n : Z)
| internalShinglingEnabled (b : bool)
| transformMethod (m : TransformMethod)
| alertOnce (b : bool)
| autoAdjust (b : bool)
| scoreDifferencing (x : float).

Definition Builder : Type := list Setting.

(** [ThresholdedRandomCutForest.builder()]. *)
Definition builder : Builder := [].

Fixpoint configured {A} (read : Setting -> option A) (b : Builder) : option A :=
  match b with
  | [] => None
  | s :: older =>
      match read s with
      | Some v => Some v
      | None => configured read older
      end
  end.

Definition get_dimensions s := match s with dimensions n => Some n | _ => None end.
Definition get_sampleSize s := match s with sampleSize n => Some n | _ => None end.
Definition get_numberOfTrees s := match s with numberOfTrees n => Some n | _ => None end.
Definition get_timeDecay s := match s with timeDecay x => Some x | _ => None end.
Definition get_shingleSize s := match s with shingleSize n => Some n | _ => None end.
Definition get_anomalyRate s := match s with anomalyRate x => Some x | _ => None end.
Definition get_outputAfter s := match s with outputAfter n => Some n | _ => None end.
Definition get_transformMethod s :=
  match s with transformMethod m => Some m | _ => None end.
Definition get_alertOnce s := match s with alertOnce b => Some b | _ => None end.
Definition get_autoAdjust s := match s with autoAdjust b => Some b | _ => None end.
Definition get_scoreDifferencing s :=
  match s with scoreDifferencing x => Some x | _ => None end.

Inductive Method : Type -> Type :=
| process (point : Point) (timestamp : Z) : Method AnomalyDescriptor
| setZfactor (factor : float) : Method unit.

End ThresholdedRandomCutForest.

(* ===================================================================== *)
(** ** Calling a Python function with keyword arguments left out *)
(* ===================================================================== *)

(** A keyword argument is supplied ([Some v]) or omitted ([None]); an omitted
    one takes the default of the [def]. *)
Definition arg {A} (supplied : option A) (default : A) : A :=
  match supplied with
  | Some v => v
  | None => default
  end.

(** [int * float] and [float / int]: the integer is converted first, which
    fails for an integer beyond the range of a double, and true division
    fails on a zero divisor. *)
Definition float_of_int (n : Z) : Outcome float :=
  let x := Float.of_Z n in
  if Float.is_inf x then Thrown OverflowError else Normal x.

Definition int_mul_float (n : Z) (x : float) : Outcome float :=
  outcome_bind (float_of_int n) (fun a => Normal (Float.mul a x)).

Definition float_div_int (x : float) (n : Z) : Outcome float :=
  outcome_bind (float_of_int n) (fun b =>
    if Float.is_zero b then Thrown ZeroDivisionError else Normal (Float.div x b)).

(** [xs[0]]. *)
Definition item0 {E A} (xs : list A) : Prog E A :=
  match xs with
  | x :: _ => Ret x
  | [] => Raise IndexError
  end.

(* ===================================================================== *)
(** ** rcf_model.py: class RandomCutForestModel *)
(* ===================================================================== *)

(** [__init__], [score], [update], [impute], [forecast] and the property
    [shingle_size].  [get_attribution], which forwards the point to
    [getAnomalyAttribution] and re-raises what the JVM throws, is not the
    subject of any property below and is left out. *)
Module RandomCutForestModel.
Import RandomCutForest.
Local Open Scope prog_scope.

(** The keyword arguments of [__init__].  [forest], [random_seed] and
    [thread_pool_size] default to [None]. *)
Record Kwargs (F : Type) : Type := {
  forest : option F;
  shingle_size : option Z;
  num_trees : option Z;
  random_seed : option Z;
  sample_size : option Z;
  parallel_execution_enabled : option bool;
  thread_pool_size : option Z;
  lam : option float;
  output_after : option Z
}.
Arguments forest {F} k.
Arguments shingle_size {F} k.
Arguments num_trees {F} k.
Arguments random_seed {F} k.
Arguments sample_size {F} k.
Arguments parallel_execution_enabled {F} k.
Arguments thread_pool_size {F} k.
Arguments lam {F} k.
Arguments output_after {F} k.

(** What [__init__] leaves in [self.forest]: the forest it was handed, or
    [builder.build()] of the builder it configured. *)
Inductive ForestOrigin (F : Type) : Type :=
| Given (f : F)
| Build (b : Builder).
Arguments Given {F} f.
Arguments Build {F} b.

Definition __init__ {F} (kw : Kwargs F) : ForestOrigin F :=
  let shingle_size := arg (shingle_size kw) 8 in
  let num_trees := arg (num_trees kw) 100 in
  let sample_size := arg (sample_size kw) 256 in
  let parallel_execution_enabled := arg (parallel_execution_enabled kw) true in
  let lam := arg (lam kw) Float.lit_0_0001 in
  let output_after := arg (output_after kw) 256 in
  match forest kw with
  | Some forest => Given forest
  | None =>
      let builder :=
        builder .> numberOfTrees num_trees
                .> sampleSize sample_size
                .> dimensions shingle_size
                .> storeSequenceIndexesEnabled true
                .> centerOfMassEnabled true
                .> parallelExecutionEnabled parallel_execution_enabled
                .> timeDecay lam
                .> outputAfter output_after in
      let builder :=
        match thread_pool_size kw with
        | Some thread_pool_size => builder .> threadPoolSize thread_pool_size
        | None => builder
        end in
      let builder :=
        match random_seed kw with
        | Some random_seed => builder .> randomSeed random_seed
        | None => builder
        end in
      Build builder
  end.

Definition score (point : Point) : Prog Method float :=
  call (getAnomalyScore point).

Definition update (point : Point) : Prog Method unit :=
  call (RandomCutForest.update point).

Definition impute (point : Point) : Prog Method (list float) :=
  let num_missing := Numpy.sum (Numpy.isnan point) in
  if num_missing =? 0 then Ret point
  else
    let missing_index := Numpy.argwhere (Numpy.isnan point) in
    imputed_shingle <- call (imputeMissingValues point num_missing missing_index) ;;
    Ret imputed_shingle.

Definition forecast (point : Point) : Prog Method float :=
  extrapolated <- call (extrapolateBasic point 1 1 false 0) ;;
  val <- item0 extrapolated ;;
  Ret val.

Definition shingle_size_property : Prog Method Z :=
  call getDimensions.

End RandomCutForestModel.

(* ===================================================================== *)
(** ** trcf_model.py: class TRandomCutForestModel *)
(* ===================================================================== *)

Module TRandomCutForestModel.
Import ThresholdedRandomCutForest.
Local Open Scope prog_scope.

(** The arguments of [__init__]: two required, seven with defaults. *)
Record Kwargs : Type := {
  rcf_dimensions : Z;
  shingle_size : Z;
  num_trees : option Z;
  output_after : option Z;
  anomaly_rate : option float;
  z_factor : option float;
  score_differencing : option float;
  ignore_delta_threshold : option Z;
  sample_size : option Z
}.

(** What [__init__] does on the Java side: [build()] of the builder it
    configured, then the calls it makes on the forest just built. *)
Record Construction : Type := {
  built_from : Builder;
  then_calls : Prog Method unit
}.

Definition __init__ (kw : Kwargs) : Outcome Construction :=
  let rcf_dimensions := rcf_dimensions kw in
  let shingle_size := shingle_size kw in
  let num_trees := arg (num_trees kw) 30 in
  let output_after := arg (output_after kw) 256 in
  let anomaly_rate := arg (anomaly_rate kw) Float.lit_0_005 in
  let z_factor := arg (z_factor kw) Float.lit_2_5 in
  let score_differencing := arg (score_differencing kw) Float.lit_0_5 in
  let ignore_delta_threshold := arg (ignore_delta_threshold kw) 0 in
  let sample_size := arg (sample_size kw) 256 in
  outcome_bind (int_mul_float output_after Float.lit_1_0) (fun scaled =>
  outcome_bind (float_div_int scaled sample_size) (fun fraction =>
    Normal {|
      built_from :=
        builder .> dimensions rcf_dimensions
                .> sampleSize sample_size
                .> numberOfTrees num_trees
                .> timeDecay Float.lit_0_0001
                .> initialAcceptFraction fraction
                .> parallelExecutionEnabled true
                .> compact true
                .> precision FLOAT_32
                .> boundingBoxCacheFraction (Float.of_Z 1)
                .> shingleSize shingle_size
                .> anomalyRate anomaly_rate
                .> outputAfter output_after
                .> internalShinglingEnabled true
                .> transformMethod NORMALIZE
                .> alertOnce true
                .> autoAdjust true;
      then_calls := call (setZfactor z_factor)
    |})).

Definition process (point : Point) : Prog Method AnomalyDescriptor :=
  call (ThresholdedRandomCutForest.process point 0).

End TRandomCutForestModel.


(* ===================================================================== *)
(** ** The engine behind the calls *)
(* ===================================================================== *)

(** The Java engine is not part of the binding.  What follows is modelled
    from the specification: the forest ensemble of section 4.3 over a tree
    component with the contract of section 4.2, and the calibration layer of
    section 4.4 over the ensemble. *)
Module Engine.

(** *** Lists of floats *)

Definition fsum (xs : list float) : float := fold_right Float.add Float.zero xs.

Definition mean (xs : list float) : float :=
  match xs with
  | [] => Float.zero
  | _ :: _ => Float.div (fsum xs) (Float.of_Z (Z.of_nat (length xs)))
  end.

(** Insertion sort, ascending in [key]. *)
Fixpoint insert_by {A} (key : A -> float) (x : A) (sorted : list A) : list A :=
  match sorted with
  | [] => [x]
  | y :: rest =>
      if Float.leb (key x) (key y) then x :: y :: rest
      else y :: insert_by key x rest
  end.

Definition sort_by {A} (key : A -> float) (xs : list A) : list A :=
  fold_right (insert_by key) [] xs.

(** The middle element in ascending order. *)
Definition median (xs : list float) : float :=
  nth (length xs / 2) (sort_by (fun x => x) xs) Float.nan.

(** The element at [percent] of the way up, in ascending order of [key]. *)
Definition at_percentile {A} (percent : nat) (key : A -> float) (xs : list A)
    (default : A) : A :=
  nth (length xs * percent / 100) (sort_by key xs) default.

(** [p] with coordinate [i] replaced by [v]. *)
Fixpoint set_nth (i : nat) (v : float) (p : Point) : Point :=
  match p, i with
  | [], _ => []
  | _ :: rest, O => v :: rest
  | x :: rest, S j => x :: set_nth j v rest
  end.

(** Masses, depths and the number of paths are Java [int]s. *)
Definition int_max : Z := 2 ^ 31 - 1.

Definition java_ints (paths : list (N * N)) : Prop :=
  Z.of_nat (length paths) <= int_max /\
  Forall (fun path => Z.of_N (fst path) <= int_max /\ Z.of_N (snd path) < int_max) paths.

(** A valid count at construction: a positive Java [int]. *)
Definition is_int_positive (n : Z) : bool := (0 <? n) && (n <=? int_max).

(** Modelled from the spec: the contract of one random cut tree (section
    4.2).  The tree's shape and its random choices stay inside the component;
    the ensemble sees
    - [tree_offer]: the point is offered with its sequence index, and the tree
      inserts it, evicting a resident when its sample is full;
    - [tree_descents]: the candidate insertion paths of a point, each given by
      the mass of the sibling subtree and the depth of the leaf position
      reached (none in an empty tree);
    - [tree_impute]: the tree's completion of a point at the missing
      dimensions.
    Masses, depths and the number of paths fit Java [int]s. *)
Class RandomCutTree (T : Type) : Type := {
  tree_new : Z -> Z -> T;
  tree_offer : T -> Point -> Z -> T;
  tree_descents : T -> Point -> list (N * N);
  tree_impute : T -> Point -> list nat -> Point;
  tree_descents_int : forall t point, java_ints (tree_descents t point)
}.

(** Modelled from the spec: the calibration component of section 4.4, given
    by its running normalisation of the input and by the step that turns a raw
    score into a graded descriptor. *)
Class Calibrator (C : Type) : Type := {
  calibrator_new : ThresholdedRandomCutForest.Builder -> C;
  normalize : C -> Point -> Point;
  calibrate : C -> float -> Point -> float -> Z -> AnomalyDescriptor * C
}.

Section Ensemble.
Context {T : Type} {tree_contract : RandomCutTree T}.

(** Modelled from the spec: the score of one tree, the displacement
    [mass of sibling subtree / (depth + 1)] averaged over the candidate
    insertion paths; an empty tree scores 0. *)
Definition displacement (path : N * N) : float :=
  Float.div (Float.of_Z (Z.of_N (fst path))) (Float.of_Z (Z.of_N (snd path) + 1)).

Definition anomaly_score (t : T) (point : Point) : float :=
  mean (map displacement (tree_descents t point)).

(** Modelled from the spec: the forest ensemble (section 3): its trees and
    one logical time counter, with the configuration it was built from. *)
Record Forest : Type := {
  dimensions : Z;
  outputAfter : Z;
  settings : RandomCutForest.Builder;
  trees : list T;
  totalUpdates : Z
}.

Definition seeds (first : Z) (count : nat) : list Z :=
  map (fun i => first + Z.of_nat i) (seq 0 count).

(** Modelled from the spec: [build()].  Invalid dimensions, sample size or
    tree count are a [ConfigurationError]; a parameter never set takes the
    default of [construct] (spec, section 6). *)
Definition build (b : RandomCutForest.Builder) : Outcome Forest :=
  let numberOfTrees := arg (RandomCutForest.configured RandomCutForest.get_numberOfTrees b) 100 in
  let sampleSize := arg (RandomCutForest.configured RandomCutForest.get_sampleSize b) 256 in
  let randomSeed := arg (RandomCutForest.configured RandomCutForest.get_randomSeed b) 0 in
  match RandomCutForest.configured RandomCutForest.get_dimensions b with
  | Some d =>
      if is_int_positive d && is_int_positive sampleSize && is_int_positive numberOfTrees then
        Normal {|
          dimensions := d;
          outputAfter := arg (RandomCutForest.configured RandomCutForest.get_outputAfter b) 256;
          settings := b;
          trees := map (tree_new sampleSize) (seeds randomSeed (Z.to_nat numberOfTrees));
          totalUpdates := 0
        |}
      else Thrown (JException ConfigurationError)
  | None => Thrown (JException ConfigurationError)
  end.

Definition has_dimensions (f : Forest) (point : Point) : bool :=
  Z.of_nat (length point) =? dimensions f.

(** The mean of the trees' scores. *)
Definition ensemble_score (f : Forest) (point : Point) : float :=
  mean (map (fun t => anomaly_score t point) (trees f)).

(** Modelled from the spec: [update], the single mutation entry point.  The
    point is offered to every tree and the time counter advances; a point of
    the wrong length is rejected first. *)
Definition update (f : Forest) (point : Point) : Outcome unit * Forest :=
  if has_dimensions f point then
    (Normal tt,
     {| dimensions := dimensions f;
        outputAfter := outputAfter f;
        settings := settings f;
        trees := map (fun t => tree_offer t point (totalUpdates f)) (trees f);
        totalUpdates := totalUpdates f + 1 |})
  else (Thrown (JException DimensionMismatchError), f).

(** Modelled from the spec: [score].  0 before [outputAfter] points have been
    ingested, the mean of the trees' scores afterwards. *)
Definition getAnomalyScore (f : Forest) (point : Point) : Outcome float :=
  if has_dimensions f point then
    if totalUpdates f <? outputAfter f then Normal Float.zero
    else Normal (ensemble_score f point)
  else Thrown (JException DimensionMismatchError).

(** Modelled from the spec: [impute] with one missing dimension: the median
    of the values the trees impute there. *)
Definition impute_median (f : Forest) (point : Point) (i : nat) : Point :=
  set_nth i
    (median (map (fun t => nth i (tree_impute t point [i]) Float.nan) (trees f)))
    point.

(** Modelled from the spec: [impute] with several missing dimensions: among
    the trees' candidates, the one at the 25th percentile of induced anomaly
    score. *)
Definition impute_percentile : nat := 25.

Definition impute_candidate (f : Forest) (point : Point) (missing : list nat) : Point :=
  at_percentile impute_percentile (ensemble_score f)
    (map (fun t => tree_impute t point missing) (trees f)) point.

Definition impute_at (f : Forest) (point : Point) (missing : list nat) : Point :=
  match missing with
  | [] => point
  | [i] => impute_median f point i
  | _ :: _ :: _ => impute_candidate f point missing
  end.

(** Modelled from the spec: a numeric error during imputation (section 7).
    The spec names the point all of whose coordinates are NaN, which leaves
    nothing to impute from. *)
Definition numeric_error (point : Point) : bool := forallb Float.isnan point.

(** Modelled from the spec: [impute] at the call boundary.  A point of the
    wrong length is rejected; a numeric error fails closed, the point coming
    back unchanged; otherwise the point is completed at the missing
    dimensions. *)
Definition imputeMissingValues (f : Forest) (point : Point)
    (numberOfMissingValues : Z) (missingIndexes : list Z) : Outcome (list float) :=
  if has_dimensions f point then
    if numeric_error point then Normal point
    else
      Normal (impute_at f point
                (firstn (Z.to_nat numberOfMissingValues) (map Z.to_nat missingIndexes)))
  else Thrown (JException DimensionMismatchError).

(** Modelled from the spec: [forecast] as repeated single-step imputation.
    Each step drops the oldest block of the shingle, appends a placeholder
    block, imputes it and emits the imputed block. *)
Fixpoint extrapolate (f : Forest) (steps block : nat) (point : Point) : list float :=
  match steps with
  | O => []
  | S remaining =>
      let kept := (length point - block)%nat in
      let shifted := skipn block point ++ repeat Float.nan block in
      let filled := impute_at f shifted (seq kept block) in
      skipn kept filled ++ extrapolate f remaining block filled
  end.

(** The spec describes the sliding shingle only, which is what the binding
    asks for; a cyclic shingle is outside the model. *)
Definition extrapolateBasic (f : Forest) (point : Point) (horizon blockSize : Z)
    (cyclic : bool) (shingleIndex : Z) : Outcome (list float) :=
  if has_dimensions f point then
    if cyclic then Thrown (JException UnsupportedOperation)
    else if (0 <=? horizon) && (0 <? blockSize) && (blockSize <=? dimensions f) then
      Normal (extrapolate f (Z.to_nat horizon) (Z.to_nat blockSize) point)
    else Thrown (JException ConfigurationError)
  else Thrown (JException DimensionMismatchError).

(** The forest as the answerer of the binding's calls.  Only [update] leaves
    a different state behind. *)
Definition forest : Handler RandomCutForest.Method Forest :=
  fun X c =>
    match c in RandomCutForest.Method X return Forest -> Outcome X * Forest with
    | RandomCutForest.getAnomalyScore point => fun f => (getAnomalyScore f point, f)
    | RandomCutForest.update point => fun f => update f point
    | RandomCutForest.imputeMissingValues point n missing =>
        fun f => (imputeMissingValues f point n missing, f)
    | RandomCutForest.extrapolateBasic point horizon blockSize cyclic shingleIndex =>
        fun f => (extrapolateBasic f point horizon blockSize cyclic shingleIndex, f)
    | RandomCutForest.getDimensions => fun f => (Normal (dimensions f), f)
    end.

(** [self.forest] after [__init__]. *)
Definition construct (origin : RandomCutForestModel.ForestOrigin Forest) : Outcome Forest :=
  match origin with
  | RandomCutForestModel.Given f => Normal f
  | RandomCutForestModel.Build b => build b
  end.

(** The forest after a stream of [update] calls through the binding; a call
    that raises leaves the loop of the caller to go on with the next point. *)
Fixpoint after_updates (f : Forest) (stream : list Point) : Forest :=
  match stream with
  | [] => f
  | point :: rest =>
      after_updates (snd (run forest (RandomCutForestModel.update point) f)) rest
  end.

(** The number of points of a stream that the forest ingests. *)
Definition ingested (f : Forest) (stream : list Point) : Z :=
  Z.of_nat (length (filter (has_dimensions f) stream)).

(** *** The thresholded forest *)

Section Thresholded.
Context {C : Type} {calibration : Calibrator C}.

(** Modelled from the spec: the thresholded forest (section 4.4): the
    ensemble it wraps, the shingle buffer in front of it, and the calibration
    state. *)
Record ThresholdedForest : Type := {
  t_dimensions : Z;
  t_shingleSize : Z;
  t_settings : ThresholdedRandomCutForest.Builder;
  zFactor : float;
  ensemble : Forest;
  buffer : list float;
  calibrator : C
}.

Definition t_build (b : ThresholdedRandomCutForest.Builder) : Outcome ThresholdedForest :=
  let numberOfTrees :=
    arg (ThresholdedRandomCutForest.configured ThresholdedRandomCutForest.get_numberOfTrees b) 30 in
  let sampleSize :=
    arg (ThresholdedRandomCutForest.configured ThresholdedRandomCutForest.get_sampleSize b) 256 in
  let warmup :=
    arg (ThresholdedRandomCutForest.configured ThresholdedRandomCutForest.get_outputAfter b) 256 in
  match ThresholdedRandomCutForest.configured ThresholdedRandomCutForest.get_dimensions b,
        ThresholdedRandomCutForest.configured ThresholdedRandomCutForest.get_shingleSize b with
  | Some d, Some k =>
      if is_int_positive k && is_int_positive d && (d mod k =? 0)
         && is_int_positive sampleSize && is_int_positive numberOfTrees then
        Normal {|
          t_dimensions := d;
          t_shingleSize := k;
          t_settings := b;
          zFactor := Float.lit_2_5;
          ensemble := {|
            dimensions := d;
            outputAfter := warmup;
            settings := [];
            trees := map (tree_new sampleSize) (seeds 0 (Z.to_nat numberOfTrees));
            totalUpdates := 0 |};
          buffer := [];
          calibrator := calibrator_new b
        |}
      else Thrown (JException ConfigurationError)
  | _, _ => Thrown (JException ConfigurationError)
  end.

(** The length of one input: the base dimension. *)
Definition input_length (t : ThresholdedForest) : Z := t_dimensions t / t_shingleSize t.

(** The last [n] values of a list. *)
Definition last_n {A} (n : nat) (xs : list A) : list A := skipn (length xs - n) xs.

(** Modelled from the spec: [process].  The input is checked, normalised and
    rolled into the shingle buffer; once the buffer holds a full shingle the
    ensemble scores it and ingests it; the calibrator grades the score. *)
Definition t_process (t : ThresholdedForest) (point : Point) (timestamp : Z)
    : Outcome AnomalyDescriptor * ThresholdedForest :=
  if Z.of_nat (length point) =? input_length t then
    let input := normalize (calibrator t) point in
    let shingle := last_n (Z.to_nat (t_dimensions t)) (buffer t ++ input) in
    let full := Z.of_nat (length shingle) =? t_dimensions t in
    let raw :=
      if full then getAnomalyScore (ensemble t) shingle else Normal Float.zero in
    match raw with
    | Thrown e => (Thrown e, t)
    | Normal raw_score =>
        let '(descriptor, calibrator') :=
          calibrate (calibrator t) (zFactor t) input raw_score timestamp in
        (Normal descriptor,
         {| t_dimensions := t_dimensions t;
            t_shingleSize := t_shingleSize t;
            t_settings := t_settings t;
            zFactor := zFactor t;
            ensemble := if full then snd (update (ensemble t) shingle) else ensemble t;
            buffer := shingle;
            calibrator := calibrator' |})
    end
  else (Thrown (JException DimensionMismatchError), t).

Definition t_setZfactor (t : ThresholdedForest) (factor : float) : ThresholdedForest :=
  {| t_dimensions := t_dimensions t;
     t_shingleSize := t_shingleSize t;
     t_settings := t_settings t;
     zFactor := factor;
     ensemble := ensemble t;
     buffer := buffer t;
     calibrator := calibrator t |}.

Definition thresholded : Handler ThresholdedRandomCutForest.Method ThresholdedForest :=
  fun X c =>
    match c in ThresholdedRandomCutForest.Method X
          return ThresholdedForest -> Outcome X * ThresholdedForest with
    | ThresholdedRandomCutForest.process point timestamp =>
        fun t => t_process t point timestamp
    | ThresholdedRandomCutForest.setZfactor factor =>
        fun t => (Normal tt, t_setZfactor t factor)
    end.

(** [self.forest] after [__init__]: [build()], then the calls made on the
    result. *)
Definition t_construct (c : TRandomCutForestModel.Construction) : Outcome ThresholdedForest :=
  match t_build (TRandomCutForestModel.built_from c) with
  | Normal t =>
      match run thresholded (TRandomCutForestModel.then_calls c) t with
      | (Normal _, t') => Normal t'
      | (Thrown e, _) => Thrown e
      end
  | Thrown e => Thrown e
  end.

End Thresholded.
End Ensemble.

End Engine.


(* ===================================================================== *)
(** ** A smallest engine to run the binding on *)
(* ===================================================================== *)

(** A random cut tree over a sample of one point: the tree is empty or a
    single leaf of mass 1.  An offered point evicts the resident.  A point
    that differs from the leaf would be inserted as its sibling at depth 0; a
    duplicate displaces nothing.  Missing coordinates are completed from the
    leaf, and with 0 in an empty tree. *)
Module OneLeaf.

Definition Tree : Type := option Point.

Fixpoint same_point (p q : Point) : bool :=
  match p, q with
  | [], [] => true
  | x :: p', y :: q' => SFeqb x y && same_point p' q'
  | _, _ => false
  end.

Definition offer (t : Tree) (point : Point) (sequenceIndex : Z) : Tree := Some point.

Definition descents (t : Tree) (point : Point) : list (N * N) :=
  match t with
  | None => []
  | Some leaf => if same_point leaf point then [] else [(1%N, 0%N)]
  end.

Fixpoint complete (leaf point : Point) (missing : list nat) : Point :=
  match missing with
  | [] => point
  | i :: rest => complete leaf (Engine.set_nth i (nth i leaf Float.zero) point) rest
  end.

Definition impute (t : Tree) (point : Point) (missing : list nat) : Point :=
  match t with
  | None => complete [] point missing
  | Some leaf => complete leaf point missing
  end.

Lemma descents_int : forall t point, Engine.java_ints (descents t point).
Proof.
  intros t point. unfold descents, Engine.java_ints, Engine.int_max.
  destruct t as [leaf|]; [destruct (same_point leaf point)|]; simpl;
    repeat constructor; simpl; lia.
Qed.

#[global] Instance tree : Engine.RandomCutTree Tree := {
  tree_new := fun _ _ => None;
  tree_offer := offer;
  tree_descents := descents;
  tree_impute := impute;
  tree_descents_int := descents_int
}.

(** A calibrator without normalisation whose threshold is the z-factor: the
    grade is 0 up to the threshold and the score above it. *)
Definition Calibration : Type := unit.

Definition grade (c : Calibration) (factor : float) (input : Point) (raw : float)
    (timestamp : Z) : AnomalyDescriptor * Calibration :=
  ({| score_of := raw;
      grade_of := if Float.leb raw factor then Float.zero else raw;
      threshold_of := factor;
      low_of := [];
      high_of := [];
      expectedValue_of := input |}, c).

#[global] Instance calibrator : Engine.Calibrator Calibration := {
  calibrator_new := fun _ => tt;
  normalize := fun _ point => point;
  calibrate := grade
}.

(** [RandomCutForestModel(shingle_size=2, num_trees=3, output_after=1)]. *)
Definition kwargs2 : RandomCutForestModel.Kwargs (Engine.Forest (T := Tree)) := {|
  RandomCutForestModel.forest := None;
  RandomCutForestModel.shingle_size := Some 2;
  RandomCutForestModel.num_trees := Some 3;
  RandomCutForestModel.random_seed := None;
  RandomCutForestModel.sample_size := None;
  RandomCutForestModel.parallel_execution_enabled := None;
  RandomCutForestModel.thread_pool_size := None;
  RandomCutForestModel.lam := None;
  RandomCutForestModel.output_after := Some 1
|}.

Definition fresh2 : Outcome Engine.Forest :=
  Engine.construct (RandomCutForestModel.__init__ kwargs2).

Definition no_forest : Engine.Forest (T := Tree) := {|
  Engine.dimensions := 0;
  Engine.outputAfter := 0;
  Engine.settings := [];
  Engine.trees := [];
  Engine.totalUpdates := 0
|}.

Definition fresh_forest : Engine.Forest :=
  match fresh2 with
  | Normal f => f
  | Thrown _ => no_forest
  end.

(** The same model after [update([1.0, 2.0])]. *)
Definition primed_forest : Engine.Forest :=
  Engine.after_updates fresh_forest [[Float.lit_1_0; Float.lit_2_0]].

(** [TRandomCutForestModel(rcf_dimensions=4, shingle_size=2)]. *)
Definition tkwargs : TRandomCutForestModel.Kwargs := {|
  TRandomCutForestModel.rcf_dimensions := 4;
  TRandomCutForestModel.shingle_size := 2;
  TRandomCutForestModel.num_trees := None;
  TRandomCutForestModel.output_after := None;
  TRandomCutForestModel.anomaly_rate := None;
  TRandomCutForestModel.z_factor := None;
  TRandomCutForestModel.score_differencing := None;
  TRandomCutForestModel.ignore_delta_threshold := None;
  TRandomCutForestModel.sample_size := None
|}.

Definition thresholded4 : Outcome (Engine.ThresholdedForest (T := Tree) (C := Calibration)) :=
  outcome_bind (TRandomCutForestModel.__init__ tkwargs) Engine.t_construct.

Definition thresholded_forest : Engine.ThresholdedForest :=
  match thresholded4 with
  | Normal t => t
  | Thrown _ =>
      {| Engine.t_dimensions := 0;
         Engine.t_shingleSize := 0;
         Engine.t_settings := [];
         Engine.zFactor := Float.zero;
         Engine.ensemble := no_forest;
         Engine.buffer := [];
         Engine.calibrator := tt |}
  end.

End OneLeaf.


(* ===================================================================== *)
(** ** The specification's own words, to compare the binding with *)
(* ===================================================================== *)

Module Spec.

(** The missing dimensions of a point: exactly the positions that hold a
    NaN, in increasing order. *)
Definition missing_dimensions (point : Point) : list nat :=
  filter (fun i => Float.isnan (nth i point Float.zero)) (seq 0 (length point)).

(** [ThresholdedForest.process(point, timestamp)] as section 6 declares it:
    the descriptor is the wrapped forest's for the point and the caller's
    timestamp. *)
Definition process (point : Point) (timestamp : Z)
    : Prog ThresholdedRandomCutForest.Method AnomalyDescriptor :=
  call (ThresholdedRandomCutForest.process point timestamp).

End Spec.

(** The timestamp of the first call a program makes to [process]. *)
Definition first_timestamp {R} (m : Prog ThresholdedRandomCutForest.Method R) : option Z :=
  match m with
  | Call c _ =>
      match c with
      | ThresholdedRandomCutForest.process _ timestamp => Some timestamp
      | ThresholdedRandomCutForest.setZfactor _ => None
      end
  | _ => None
  end.

(* ===================================================================== *)
(** ** Medians and percentiles, said without an algorithm *)
(* ===================================================================== *)

Module Rank.




End Rank.

(* ===================================================================== *)
(** ** An engine whose trees differ *)
(* ===================================================================== *)

(** A tree that samples every third point of the stream, starting at its
    seed, and holds the latest point it sampled as a single leaf.  Trees of
    seeds 0, 1 and 2 hold three different points after three updates. *)
Module Striped.

Record Tree : Type := {
  stripe : Z;
  leaf : OneLeaf.Tree
}.

Definition offer (t : Tree) (point : Point) (sequenceIndex : Z) : Tree :=
  if sequenceIndex mod 3 =? stripe t mod 3
  then {| stripe := stripe t; leaf := Some point |}
  else t.

Lemma striped_descents_int : forall (t : Tree) point,
  Engine.java_ints (OneLeaf.descents (leaf t) point).
Proof. intros t point. apply OneLeaf.descents_int. Qed.

#[global] Instance tree : Engine.RandomCutTree Tree := {
  tree_new := fun _ seed => {| stripe := seed; leaf := None |};
  tree_offer := offer;
  tree_descents := fun t => OneLeaf.descents (leaf t);
  tree_impute := fun t => OneLeaf.impute (leaf t);
  tree_descents_int := striped_descents_int
}.

(** [RandomCutForestModel(shingle_size=3, num_trees=3, output_after=1)]. *)
Definition kwargs3 : RandomCutForestModel.Kwargs (Engine.Forest (T := Tree)) := {|
  RandomCutForestModel.forest := None;
  RandomCutForestModel.shingle_size := Some 3;
  RandomCutForestModel.num_trees := Some 3;
  RandomCutForestModel.random_seed := None;
  RandomCutForestModel.sample_size := None;
  RandomCutForestModel.parallel_execution_enabled := None;
  RandomCutForestModel.thread_pool_size := None;
  RandomCutForestModel.lam := None;
  RandomCutForestModel.output_after := Some 1
|}.

Definition builder3 : RandomCutForest.Builder :=
  match RandomCutForestModel.__init__ kwargs3 with
  | RandomCutForestModel.Build b => b
  | RandomCutForestModel.Given _ => []
  end.

Definition fresh_forest : Engine.Forest (T := Tree) :=
  match Engine.build builder3 with
  | Normal f => f
  | Thrown _ =>
      {| Engine.dimensions := 0;
         Engine.outputAfter := 0;
         Engine.settings := [];
         Engine.trees := [];
         Engine.totalUpdates := 0 |}
  end.

(** The updates [1.0, 2.0, 3.0], [3.0, 1.0, 2.0] and [2.0, 3.0, 1.0]. *)
Definition stream3 : list Point :=
  [[Float.lit_1_0; Float.lit_2_0; Float.lit_3_0];
   [Float.lit_3_0; Float.lit_1_0; Float.lit_2_0];
   [Float.lit_2_0; Float.lit_3_0; Float.lit_1_0]].

Definition primed_forest : Engine.Forest := Engine.after_updates fresh_forest stream3.

End Striped.

(* ===================================================================== *)
(** ** Calls that change the forest *)
(* ===================================================================== *)

(** Of the methods the binding calls on [RandomCutForest], [update] is the one
    that ingests a point. *)
Definition is_update {X} (c : RandomCutForest.Method X) : bool :=
  match c with
  | RandomCutForest.update _ => true
  | _ => false
  end.

(** A program that, whatever the forest answers, never calls [update]. *)
Inductive NoUpdate {R} : Prog RandomCutForest.Method R -> Prop :=
| NoUpdate_Ret (r : R) : NoUpdate (Ret r)
| NoUpdate_Raise (e : Exception) : NoUpdate (Raise e)
| NoUpdate_Call X (c : RandomCutForest.Method X) (k : X -> Prog RandomCutForest.Method R) :
    is_update c = false -> (forall x, NoUpdate (k x)) -> NoUpdate (Call c k).

(** A forest whose queries leave it as it was. *)
Definition queries_read_only {S} (h : Handler RandomCutForest.Method S) : Prop :=
  forall X (c : RandomCutForest.Method X) (s : S),
    is_update c = false -> snd (h X c s) = s.

Unset Implicit Arguments.
Local Open Scope prog_scope.

(* ===================================================================== *)
(** * Facts about binary64 arithmetic *)
(* ===================================================================== *)

Module FloatFacts.

Lemma nonneg_not_below_zero (x : float) : Float.nonneg x = true <-> Float.not_below_zero x.
Proof.
  destruct x as [s|s| |s m e]; try destruct s; cbv; intuition congruence.
Qed.

Lemma iter_pos_keeps {A} (P : A -> Prop) (f : A -> A) :
  (forall a, P a -> P (f a)) -> forall n a, P a -> P (iter_pos f n a).
Proof.
  intros step. induction n as [n IH|n IH|]; intros a Pa; simpl; auto.
Qed.

Lemma shr_1_keeps_sign (mrs : shr_record) : 0 <= shr_m mrs -> 0 <= shr_m (shr_1 mrs).
Proof.
  destruct mrs as [m r s]. simpl. destruct m as [|p|p]; [|destruct p|destruct p]; simpl; lia.
Qed.

Lemma shr_keeps_sign (mrs : shr_record) (e n : Z) :
  0 <= shr_m mrs -> 0 <= shr_m (fst (shr mrs e n)).
Proof.
  intros H. destruct n as [|p|p]; simpl; auto.
  apply (iter_pos_keeps (fun r => 0 <= shr_m r)); auto using shr_1_keeps_sign.
Qed.

Lemma shr_fexp_keeps_sign (m e : Z) (l : location) :
  0 <= m -> 0 <= shr_m (fst (shr_fexp Float.prec Float.emax m e l)).
Proof.
  intros H. unfold shr_fexp. apply shr_keeps_sign.
  destruct l as [|[ | | ]]; simpl; exact H.
Qed.

Lemma round_nearest_even_keeps_sign (m : Z) (l : location) :
  0 <= m -> 0 <= round_nearest_even m l.
Proof.
  intros H. destruct l as [|[ | | ]]; simpl; try lia.
  destruct (Z.even m); lia.
Qed.

Lemma binary_round_aux_not_below_zero (m e : Z) (l : location) :
  0 <= m -> Float.not_below_zero (binary_round_aux Float.prec Float.emax false m e l).
Proof.
  intros H. unfold binary_round_aux.
  pose proof (shr_fexp_keeps_sign m e l H) as H1.
  destruct (shr_fexp Float.prec Float.emax m e l) as [mrs' e'].
  simpl in H1.
  pose proof (round_nearest_even_keeps_sign _ (loc_of_shr_record mrs') H1) as H2.
  pose proof (shr_fexp_keeps_sign _ e' loc_Exact H2) as H3.
  destruct (shr_fexp Float.prec Float.emax _ e' loc_Exact) as [mrs'' e''].
  simpl in H3.
  destruct (shr_m mrs'') as [|p|p]; simpl; auto; try lia.
  destruct (e'' <=? _); simpl; auto.
Qed.

Lemma binary_round_not_below_zero (m : positive) (e : Z) :
  Float.not_below_zero (binary_round Float.prec Float.emax false m e).
Proof.
  unfold binary_round.
  destruct (shl_align m e _) as [mz ez].
  apply binary_round_aux_not_below_zero. lia.
Qed.

Lemma of_Z_not_below_zero (z : Z) : 0 <= z -> Float.not_below_zero (Float.of_Z z).
Proof.
  intros H. unfold Float.of_Z, binary_normalize.
  destruct z as [|p|p]; simpl; auto; [apply binary_round_not_below_zero | lia].
Qed.

Lemma add_not_below_zero (x y : float) : Float.not_below_zero x -> Float.not_below_zero y -> Float.not_below_zero (Float.add x y).
Proof.
  destruct x as [sx|sx| |sx mx ex]; destruct y as [sy|sy| |sy my ey];
    try destruct sx; try destruct sy; simpl; auto; try tauto.
  intros _ _. apply binary_round_not_below_zero.
Qed.

Lemma div_not_below_zero (x : float) (m : positive) (e : Z) :
  Float.not_below_zero x -> Float.not_below_zero (Float.div x (S754_finite false m e)).
Proof.
  destruct x as [sx|sx| |sx mx ex]; try destruct sx; simpl; auto; try tauto.
  intros _. unfold SFdiv_core_binary.
  match goal with
  | |- context [Z.div_eucl ?a ?b] =>
      assert (Ha : 0 <= a);
      [| pose proof (Z.div_pos a b Ha ltac:(lia)) as Hq; unfold Z.div in Hq;
         destruct (Z.div_eucl a b) as [q r]; apply binary_round_aux_not_below_zero; exact Hq ]
  end.
  match goal with
  | |- 0 <= match ?s with _ => _ end => destruct s; try lia
  end.
  apply Z.shiftl_nonneg. lia.
Qed.

Lemma digits2_iter_xO (k p : positive) :
  Zpos (digits2_pos (Pos.iter xO p k)) = Zpos (digits2_pos p) + Zpos k.
Proof.
  induction k as [|k IH] using Pos.peano_ind.
  - simpl. lia.
  - rewrite Pos.iter_succ. simpl digits2_pos. lia.
Qed.

Lemma digits2_bound (p : positive) : forall n, 0 <= n -> Zpos p < 2 ^ n -> Zpos (digits2_pos p) <= n.
Proof.
  induction p as [p IH|p IH|]; intros n Hn H.
  - assert (n <> 0) by (intros ->; simpl in H; lia).
    replace n with (Z.succ (n - 1)) in H by lia.
    rewrite Z.pow_succ_r in H by lia.
    specialize (IH (n - 1) ltac:(lia) ltac:(lia)). simpl digits2_pos. lia.
  - assert (n <> 0) by (intros ->; simpl in H; lia).
    replace n with (Z.succ (n - 1)) in H by lia.
    rewrite Z.pow_succ_r in H by lia.
    specialize (IH (n - 1) ltac:(lia) ltac:(lia)). simpl digits2_pos. lia.
  - assert (n <> 0) by (intros ->; simpl in H; lia). simpl. lia.
Qed.

(** A mantissa of 53 digits at an exponent within range is kept as it is. *)
Lemma binary_round_aux_exact (m : positive) (e : Z) :
  Zpos (digits2_pos m) = 53 -> -1074 <= e <= 971 ->
  binary_round_aux Float.prec Float.emax false (Zpos m) e loc_Exact = S754_finite false m e.
Proof.
  intros Hd He.
  unfold binary_round_aux, shr_fexp. simpl Zdigits2.
  match goal with
  | |- context [shr _ e ?n] =>
      replace n with 0 by (unfold fexp, emin, Float.prec, Float.emax; lia)
  end.
  cbn [shr shr_record_of_loc loc_of_shr_record round_nearest_even shr_m Zdigits2].
  match goal with
  | |- context [shr _ e ?n] =>
      replace n with 0 by (unfold fexp, emin, Float.prec, Float.emax; lia)
  end.
  cbn [shr shr_m].
  destruct (Z.leb_spec e (Float.emax - Float.prec)); [reflexivity|].
  unfold Float.emax, Float.prec in *. lia.
Qed.

(** An integer below 2^53 converts to a positive finite float. *)
Lemma of_Z_finite (z : Z) :
  0 < z < 2 ^ 53 -> exists m e, Float.of_Z z = S754_finite false m e.
Proof.
  intros [H0 H1]. destruct z as [|p|p]; try lia.
  pose proof (digits2_bound p 53 ltac:(lia) H1) as Hd.
  assert (0 < Zpos (digits2_pos p)) by lia.
  unfold Float.of_Z, binary_normalize, binary_round, shl_align.
  assert (Hf : fexp Float.prec Float.emax (Zpos (digits2_pos p) + 0) = Zpos (digits2_pos p) - 53).
  { unfold fexp, emin, Float.prec, Float.emax. lia. }
  rewrite Hf.
  destruct (Zpos (digits2_pos p) - 53 - 0) as [|k|k] eqn:Hk; try lia.
  - eexists _, _. apply binary_round_aux_exact; lia.
  - eexists _, _. apply binary_round_aux_exact; [|lia].
    rewrite digits2_iter_xO. lia.
Qed.

End FloatFacts.

(* ===================================================================== *)
(** * Running a program *)
(* ===================================================================== *)

Section Running.
Context {E : Type -> Type} {S : Type} (h : Handler E S).

(** A single call answers as the Java side does: its value, or its
    exception, with the state it leaves. *)
Lemma run_call {X} (c : E X) (s : S) : run h (call c) s = h X c s.
Proof.
  unfold call. simpl. destruct (h X c s) as [[x|e] s']; reflexivity.
Qed.

End Running.

(* ===================================================================== *)
(** * The numpy calls of [impute] *)
(* ===================================================================== *)

Module NumpyFacts.

Lemma sum_argwhere (mask : list bool) :
  forall i, Numpy.sum mask = Z.of_nat (length (Numpy.argwhere_from i mask)).
Proof.
  induction mask as [|b rest IH]; intros i; simpl; [reflexivity|].
  destruct b; simpl length; rewrite (IH (i + 1)); lia.
Qed.

Lemma sum_nonneg (mask : list bool) : 0 <= Numpy.sum mask.
Proof. rewrite (sum_argwhere mask 0). lia. Qed.

(** No entry is set exactly when the sum is 0. *)
Lemma sum_zero (mask : list bool) :
  Numpy.sum mask = 0 <-> forall b, In b mask -> b = false.
Proof.
  induction mask as [|b rest IH]; simpl.
  - split; [intros _ b []|reflexivity].
  - pose proof (sum_nonneg rest). destruct b.
    + split; [lia|]. intros H0. specialize (H0 true (or_introl eq_refl)). discriminate.
    + rewrite Z.add_0_l, IH. split.
      * intros H0 b [<-|Hb]; auto.
      * intros H0 b Hb. apply H0. now right.
Qed.

(** The positions [argwhere] returns, counted from [k]. *)
Lemma argwhere_from_positions (mask : list bool) :
  forall k : nat,
    Numpy.argwhere_from (Z.of_nat k) mask =
    map Z.of_nat (filter (fun i => nth (i - k) mask false) (seq k (length mask))).
Proof.
  induction mask as [|b rest IH]; intros k; [reflexivity|].
  cbn [Numpy.argwhere_from length seq].
  assert (Htail :
    filter (fun i => nth (i - k) (b :: rest) false) (seq (Datatypes.S k) (length rest)) =
    filter (fun i => nth (i - Datatypes.S k) rest false) (seq (Datatypes.S k) (length rest))).
  { apply filter_ext_in. intros i Hi. apply in_seq in Hi.
    replace (i - k)%nat with (Datatypes.S (i - Datatypes.S k)) by lia. reflexivity. }
  cbn [filter]. rewrite Htail, Nat.sub_diag. cbn [nth].
  replace (Z.of_nat k + 1) with (Z.of_nat (Datatypes.S k)) by lia.
  rewrite IH. destruct b; reflexivity.
Qed.

(** [np.argwhere(np.isnan(point)).flatten()] lists the missing dimensions. *)
Lemma argwhere_isnan (point : Point) :
  Numpy.argwhere (Numpy.isnan point) = map Z.of_nat (Spec.missing_dimensions point).
Proof.
  unfold Numpy.argwhere, Numpy.isnan, Spec.missing_dimensions.
  change 0 with (Z.of_nat 0).
  rewrite (argwhere_from_positions (map Float.isnan point) 0).
  rewrite length_map. f_equal. apply filter_ext. intros i.
  rewrite Nat.sub_0_r.
  change false with (Float.isnan Float.zero). apply map_nth.
Qed.

Lemma to_nat_of_nat (xs : list nat) : map Z.to_nat (map Z.of_nat xs) = xs.
Proof.
  induction xs as [|x rest IH]; simpl; [reflexivity|].
  now rewrite Nat2Z.id, IH.
Qed.

Lemma sum_isnan (point : Point) :
  Numpy.sum (Numpy.isnan point) = Z.of_nat (length (Spec.missing_dimensions point)).
Proof.
  rewrite <- (length_map Z.of_nat), <- argwhere_isnan. apply sum_argwhere.
Qed.

Lemma missing_dimensions_exact (point : Point) (i : nat) :
  In i (Spec.missing_dimensions point) <->
  (i < length point)%nat /\ Float.isnan (nth i point Float.zero) = true.
Proof.
  unfold Spec.missing_dimensions. rewrite filter_In, in_seq. intuition lia.
Qed.

(** A point all of whose coordinates are NaN misses every dimension. *)
Lemma missing_dimensions_all (point : Point) :
  Forall (fun x => Float.isnan x = true) point ->
  Spec.missing_dimensions point = seq 0 (length point).
Proof.
  intros Hall. unfold Spec.missing_dimensions.
  apply forallb_filter_id. apply forallb_forall. intros i Hi. apply in_seq in Hi.
  rewrite Forall_forall in Hall. apply Hall. apply nth_In. lia.
Qed.

Lemma missing_dimensions_none (point : Point) :
  (forall x, In x point -> Float.isnan x = false) ->
  Spec.missing_dimensions point = [].
Proof.
  intros Hnone. unfold Spec.missing_dimensions.
  induction (seq 0 (length point)) as [|i rest IH]; [reflexivity|].
  simpl. destruct (Nat.lt_ge_cases i (length point)) as [Hi|Hi].
  - rewrite (Hnone _ (nth_In point Float.zero Hi)). exact IH.
  - rewrite nth_overflow by lia. exact IH.
Qed.

End NumpyFacts.

(* ===================================================================== *)
(** * Facts about the engine *)
(* ===================================================================== *)

Module EngineFacts.
Import FloatFacts.

Lemma fsum_not_below_zero (xs : list float) :
  Forall Float.not_below_zero xs -> Float.not_below_zero (Engine.fsum xs).
Proof.
  induction 1 as [|x rest Hx _ IH]; simpl; [exact I|].
  apply add_not_below_zero; assumption.
Qed.

Lemma int_max_small : Engine.int_max < 2 ^ 53.
Proof. reflexivity. Qed.

Lemma mean_not_below_zero (xs : list float) :
  Forall Float.not_below_zero xs -> Z.of_nat (length xs) <= Engine.int_max ->
  Float.not_below_zero (Engine.mean xs).
Proof.
  intros Hxs Hlen. unfold Engine.mean.
  destruct xs as [|x rest] eqn:E; [exact I|]. rewrite <- E in *.
  assert (Hpos : 0 < Z.of_nat (length xs) < 2 ^ 53).
  { pose proof int_max_small. subst xs. simpl length in *. lia. }
  destruct (of_Z_finite _ Hpos) as (m & e & ->).
  apply div_not_below_zero, fsum_not_below_zero, Hxs.
Qed.

Lemma set_nth_skipn (v : float) (p : Point) :
  forall i, (i < length p)%nat ->
    skipn i (Engine.set_nth i v p) = v :: skipn (Datatypes.S i) p.
Proof.
  induction p as [|x rest IH]; intros [|j] Hj; simpl in *; try lia; auto.
  apply IH. lia.
Qed.

Section WithTree.
Context {T : Type} {tree_contract : Engine.RandomCutTree T}.

Lemma displacement_not_below_zero (path : N * N) :
  Z.of_N (fst path) <= Engine.int_max -> Z.of_N (snd path) < Engine.int_max ->
  Float.not_below_zero (Engine.displacement path).
Proof.
  intros Hm Hd. unfold Engine.displacement.
  assert (Hpos : 0 < Z.of_N (snd path) + 1 < 2 ^ 53).
  { pose proof int_max_small. lia. }
  destruct (of_Z_finite _ Hpos) as (m & e & ->).
  apply div_not_below_zero, of_Z_not_below_zero. lia.
Qed.

Lemma anomaly_score_not_below_zero (t : T) (point : Point) :
  Float.not_below_zero (Engine.anomaly_score t point).
Proof.
  unfold Engine.anomaly_score.
  destruct (Engine.tree_descents_int t point) as [Hlen Hall].
  apply mean_not_below_zero; [|rewrite length_map; exact Hlen].
  apply Forall_map. eapply Forall_impl; [|exact Hall].
  intros path [Hm Hd]. apply displacement_not_below_zero; assumption.
Qed.

Lemma ensemble_score_not_below_zero (f : Engine.Forest) (point : Point) :
  Z.of_nat (length (Engine.trees f)) <= Engine.int_max ->
  Float.not_below_zero (Engine.ensemble_score f point).
Proof.
  intros Hlen. unfold Engine.ensemble_score.
  apply mean_not_below_zero; [|rewrite length_map; exact Hlen].
  apply Forall_map, Forall_forall. intros t _. apply anomaly_score_not_below_zero.
Qed.

(** What [build()] guarantees of a fresh forest. *)
Lemma build_fresh (b : RandomCutForest.Builder) (f : Engine.Forest) :
  Engine.build b = Normal f ->
  RandomCutForest.configured RandomCutForest.get_dimensions b = Some (Engine.dimensions f) /\
  0 < Engine.dimensions f /\
  Z.of_nat (length (Engine.trees f)) <= Engine.int_max /\
  Engine.totalUpdates f = 0.
Proof.
  unfold Engine.build. cbv zeta.
  set (count := arg (RandomCutForest.configured RandomCutForest.get_numberOfTrees b) 100).
  set (capacity := arg (RandomCutForest.configured RandomCutForest.get_sampleSize b) 256).
  destruct (RandomCutForest.configured RandomCutForest.get_dimensions b) as [d|]; [|discriminate].
  destruct (Engine.is_int_positive d) eqn:Hd; [|discriminate].
  destruct (Engine.is_int_positive capacity) eqn:Hs; [|discriminate].
  destruct (Engine.is_int_positive count) eqn:Hn; [|discriminate].
  cbn [andb]. intros [= <-]. cbn.
  unfold Engine.is_int_positive in *.
  apply andb_prop in Hd as [Hd _]. apply andb_prop in Hn as [Hn0 Hn1].
  apply Z.ltb_lt in Hd, Hn0. apply Z.leb_le in Hn1.
  repeat split; auto.
  unfold Engine.seeds. rewrite !length_map, length_seq.
  unfold Engine.int_max in *. lia.
Qed.

(** The effect of one [update] on the quantities the other calls read. *)
Lemma update_effect (f : Engine.Forest) (point : Point) :
  let f' := snd (Engine.update f point) in
  Engine.dimensions f' = Engine.dimensions f /\
  Engine.outputAfter f' = Engine.outputAfter f /\
  length (Engine.trees f') = length (Engine.trees f) /\
  Engine.totalUpdates f' =
    Engine.totalUpdates f + (if Engine.has_dimensions f point then 1 else 0).
Proof.
  unfold Engine.update. destruct (Engine.has_dimensions f point); cbn.
  - rewrite length_map. repeat split; lia.
  - repeat split; lia.
Qed.

Lemma after_updates_effect (stream : list Point) :
  forall f : Engine.Forest,
    let f' := Engine.after_updates f stream in
    Engine.dimensions f' = Engine.dimensions f /\
    Engine.outputAfter f' = Engine.outputAfter f /\
    length (Engine.trees f') = length (Engine.trees f) /\
    Engine.totalUpdates f' = Engine.totalUpdates f + Engine.ingested f stream.
Proof.
  induction stream as [|point rest IH]; intros f.
  - cbn. repeat split; lia.
  - cbn [Engine.after_updates]. unfold RandomCutForestModel.update.
    rewrite run_call. cbn [Engine.forest].
    destruct (update_effect f point) as (Hd & Ho & Hl & Hu).
    destruct (IH (snd (Engine.update f point))) as (Hd' & Ho' & Hl' & Hu').
    cbv zeta. rewrite Hd', Ho', Hl', Hu', Hd, Ho, Hl, Hu.
    repeat split.
    assert (Hsame : Engine.ingested (snd (Engine.update f point)) rest = Engine.ingested f rest).
    { unfold Engine.ingested. f_equal. f_equal. apply filter_ext. intros p.
      unfold Engine.has_dimensions. rewrite Hd. reflexivity. }
    rewrite Hsame. unfold Engine.ingested. cbn [filter].
    destruct (Engine.has_dimensions f point); cbn [length]; lia.
Qed.

(** The binding's calls, answered by the forest. *)
Lemma run_score (f : Engine.Forest) (point : Point) :
  run Engine.forest (RandomCutForestModel.score point) f =
  (Engine.getAnomalyScore f point, f).
Proof. unfold RandomCutForestModel.score. now rewrite run_call. Qed.

Lemma run_update (f : Engine.Forest) (point : Point) :
  run Engine.forest (RandomCutForestModel.update point) f = Engine.update f point.
Proof. unfold RandomCutForestModel.update. now rewrite run_call. Qed.

Lemma run_impute_missing (f : Engine.Forest) (point : Point) :
  Numpy.sum (Numpy.isnan point) <> 0 ->
  run Engine.forest (RandomCutForestModel.impute point) f =
  (if Engine.has_dimensions f point
   then
     if Engine.numeric_error point then Normal point
     else Normal (Engine.impute_at f point (Spec.missing_dimensions point))
   else Thrown (JException DimensionMismatchError), f).
Proof.
  intros Hsum. unfold RandomCutForestModel.impute.
  destruct (Z.eqb_spec (Numpy.sum (Numpy.isnan point)) 0) as [|_]; [contradiction|].
  cbn. unfold Engine.imputeMissingValues.
  destruct (Engine.has_dimensions f point); [|reflexivity].
  destruct (Engine.numeric_error point); [reflexivity|].
  rewrite NumpyFacts.argwhere_isnan, NumpyFacts.to_nat_of_nat.
  rewrite NumpyFacts.sum_isnan, Nat2Z.id, firstn_all.
  reflexivity.
Qed.

Lemma run_impute_complete {S} (h : Handler RandomCutForest.Method S) (s : S) (point : Point) :
  Numpy.sum (Numpy.isnan point) = 0 ->
  run h (RandomCutForestModel.impute point) s = (Normal point, s).
Proof.
  intros Hsum. unfold RandomCutForestModel.impute. rewrite Hsum. reflexivity.
Qed.

Lemma run_forecast {S} (h : Handler RandomCutForest.Method S) (s : S) (point : Point) :
  run h (RandomCutForestModel.forecast point) s =
  match h _ (RandomCutForest.extrapolateBasic point 1 1 false 0) s with
  | (Normal (v :: _), s') => (Normal v, s')
  | (Normal [], s') => (Thrown IndexError, s')
  | (Thrown e, s') => (Thrown e, s')
  end.
Proof.
  unfold RandomCutForestModel.forecast. cbn.
  destruct (h _ _ s) as [[[|v rest]|e] s']; reflexivity.
Qed.

(** One step of extrapolation over a block of one value. *)
Lemma extrapolate_one_step (f : Engine.Forest) (point : Point) :
  point <> [] ->
  let kept := (length point - 1)%nat in
  let shifted := skipn 1 point ++ [Float.nan] in
  Engine.extrapolate f 1 1 point =
  [Engine.median
     (map (fun t => nth kept (Engine.tree_impute t shifted [kept]) Float.nan)
        (Engine.trees f))].
Proof.
  intros Hne kept shifted. cbn [Engine.extrapolate seq repeat Engine.impute_at].
  fold kept. fold shifted. unfold Engine.impute_median.
  assert (Hlen : length shifted = Datatypes.S kept).
  { unfold shifted, kept. rewrite length_app, length_skipn. simpl length.
    destruct point; [contradiction|simpl; lia]. }
  rewrite set_nth_skipn by lia.
  rewrite skipn_all2 by lia. reflexivity.
Qed.

End WithTree.
End EngineFacts.

(* ===================================================================== *)
(** * Order statistics of the engine *)
(* ===================================================================== *)

Module RankFacts.


Section ByKey.
Context {A : Type} (key : A -> float).









End ByKey.






End RankFacts.

(* ===================================================================== *)
(** * The claims *)
(* ===================================================================== *)

(** ** impute *)










(** C5.  A point without a NaN comes back unchanged, whatever the forest and
    without a call to it. *)
Theorem impute_complete_point_unchanged
    (S : Type) (h : Handler RandomCutForest.Method S) (s : S) (point : Point) :
  (forall x, In x point -> Float.isnan x = false) ->
  RandomCutForestModel.impute point = Ret point /\
  run h (RandomCutForestModel.impute point) s = (Normal point, s).
Proof.
  intros Hnone.
  assert (Hsum : Numpy.sum (Numpy.isnan point) = 0).
  { rewrite NumpyFacts.sum_isnan, (NumpyFacts.missing_dimensions_none point Hnone).
    reflexivity. }
  split; [|exact (EngineFacts.run_impute_complete h s point Hsum)].
  unfold RandomCutForestModel.impute. rewrite Hsum. reflexivity.
Qed.

Lemma impute_complete_point_unchanged_witness :
  (forall x, In x [Float.lit_1_0; Float.lit_3_0] -> Float.isnan x = false) /\
  run Engine.forest (RandomCutForestModel.impute [Float.lit_1_0; Float.lit_3_0])
    OneLeaf.primed_forest =
  (Normal [Float.lit_1_0; Float.lit_3_0], OneLeaf.primed_forest).
Proof.
  assert (H : forall x, In x [Float.lit_1_0; Float.lit_3_0] -> Float.isnan x = false).
  { intros x [<-|[<-|[]]]; reflexivity. }
  split; [exact H|].
  exact (proj2 (impute_complete_point_unchanged _ Engine.forest OneLeaf.primed_forest _ H)).
Defined.

(** ** process *)

(** C3, as the code has it.  [process] takes the point alone; the descriptor
    is the wrapped forest's for that point and the timestamp 0, and for no
    other timestamp. *)
Theorem process_uses_timestamp_zero (point : Point) :
  TRandomCutForestModel.process point = Spec.process point 0 /\
  (forall timestamp,
     TRandomCutForestModel.process point = Spec.process point timestamp -> timestamp = 0) /\
  (forall (S : Type) (h : Handler ThresholdedRandomCutForest.Method S) (s : S),
     run h (TRandomCutForestModel.process point) s =
     h _ (ThresholdedRandomCutForest.process point 0) s).
Proof.
  split; [reflexivity|]. split.
  - intros timestamp H. apply (f_equal first_timestamp) in H. cbn in H. congruence.
  - intros S h s. unfold TRandomCutForestModel.process. apply run_call.
Qed.

(** C3, as the spec states it, fails: a caller's timestamp 5 does not reach
    the forest. *)
Lemma process_drops_the_callers_timestamp :
  TRandomCutForestModel.process [Float.lit_1_0] <> Spec.process [Float.lit_1_0] 5 /\
  first_timestamp (TRandomCutForestModel.process [Float.lit_1_0]) = Some 0 /\
  first_timestamp (Spec.process [Float.lit_1_0] 5) = Some 5.
Proof.
  split; [|split; reflexivity].
  intros H. apply (f_equal first_timestamp) in H. discriminate H.
Qed.

(** ** Points of the wrong length *)

(** C4, as the code has it.  A point of the wrong length is rejected by
    [update], [score], [forecast] and [process], and by [impute] when it
    holds a NaN, with the model left as it was; [impute] returns a complete
    point of the wrong length unchanged, again with the model left as it
    was. *)
Theorem wrong_length_is_rejected_unless_complete
    (T : Type) (tree_contract : Engine.RandomCutTree T)
    (C : Type) (calibration : Engine.Calibrator C)
    (f : Engine.Forest) (t : Engine.ThresholdedForest) (point input : Point) :
  Engine.has_dimensions f point = false ->
  Z.of_nat (length input) <> Engine.input_length t ->
  let rejected {A} : Outcome A := Thrown (JException DimensionMismatchError) in
  run Engine.forest (RandomCutForestModel.update point) f = (rejected, f) /\
  run Engine.forest (RandomCutForestModel.score point) f = (rejected, f) /\
  run Engine.forest (RandomCutForestModel.forecast point) f = (rejected, f) /\
  run Engine.forest (RandomCutForestModel.impute point) f =
    (if Numpy.sum (Numpy.isnan point) =? 0 then Normal point else rejected, f) /\
  run Engine.thresholded (TRandomCutForestModel.process input) t = (rejected, t).
Proof.
  intros Hdim Hlen rejected. repeat split.
  - rewrite EngineFacts.run_update. unfold Engine.update. now rewrite Hdim.
  - rewrite EngineFacts.run_score. unfold Engine.getAnomalyScore. now rewrite Hdim.
  - rewrite EngineFacts.run_forecast. cbn. unfold Engine.extrapolateBasic. now rewrite Hdim.
  - destruct (Z.eqb_spec (Numpy.sum (Numpy.isnan point)) 0) as [H0|H0].
    + apply EngineFacts.run_impute_complete, H0.
    + rewrite (EngineFacts.run_impute_missing f point H0). now rewrite Hdim.
  - unfold TRandomCutForestModel.process. rewrite run_call. cbn.
    unfold Engine.t_process.
    destruct (Z.eqb_spec (Z.of_nat (length input)) (Engine.input_length t)); [contradiction|].
    reflexivity.
Qed.

Lemma wrong_length_is_rejected_unless_complete_witness :
  let point := [Float.lit_1_0; Float.nan; Float.lit_3_0] in
  let input := [Float.lit_3_0] in
  let rejected {A} : Outcome A := Thrown (JException DimensionMismatchError) in
  Engine.has_dimensions OneLeaf.primed_forest point = false /\
  Z.of_nat (length input) <> Engine.input_length OneLeaf.thresholded_forest /\
  run Engine.forest (RandomCutForestModel.update point) OneLeaf.primed_forest =
    (rejected, OneLeaf.primed_forest) /\
  run Engine.forest (RandomCutForestModel.impute point) OneLeaf.primed_forest =
    (rejected, OneLeaf.primed_forest) /\
  run Engine.thresholded (TRandomCutForestModel.process input) OneLeaf.thresholded_forest =
    (rejected, OneLeaf.thresholded_forest).
Proof.
  intros point input rejected.
  assert (H1 : Engine.has_dimensions OneLeaf.primed_forest point = false) by reflexivity.
  assert (H2 : Z.of_nat (length input) <> Engine.input_length OneLeaf.thresholded_forest)
    by (vm_compute; discriminate).
  destruct (wrong_length_is_rejected_unless_complete
              _ _ _ _ OneLeaf.primed_forest OneLeaf.thresholded_forest point input H1 H2)
    as (Hu & _ & _ & Hi & Hp).
  repeat split; assumption.
Defined.

(** C4, as the spec states it, fails: the model of dimension 2 does not
    reject a complete point of length 3 given to [impute]. *)
Lemma impute_keeps_a_complete_point_of_wrong_length :
  let point := [Float.lit_1_0; Float.lit_2_0; Float.lit_3_0] in
  RandomCutForestModel.impute point = Ret point /\
  OneLeaf.fresh2 = Normal OneLeaf.fresh_forest /\
  Engine.dimensions OneLeaf.fresh_forest = 2 /\
  Engine.has_dimensions OneLeaf.fresh_forest point = false /\
  run Engine.forest (RandomCutForestModel.impute point) OneLeaf.fresh_forest =
    (Normal point, OneLeaf.fresh_forest).
Proof.
  cbv zeta. repeat split.
Qed.

(** ** score *)

(** C6.  On a forest built and then fed any stream of updates, the score of
    a point of the forest's dimensionality is at or above zero, and it is
    exactly 0 while fewer than [outputAfter] points have been ingested. *)
Theorem score_nonneg_and_cold_start
    (T : Type) (tree_contract : Engine.RandomCutTree T)
    (b : RandomCutForest.Builder) (f0 : Engine.Forest)
    (stream : list Point) (point : Point) :
  Engine.build b = Normal f0 ->
  Engine.has_dimensions f0 point = true ->
  let f := Engine.after_updates f0 stream in
  exists s,
    run Engine.forest (RandomCutForestModel.score point) f = (Normal s, f) /\
    Float.nonneg s = true /\
    (Engine.ingested f0 stream < Engine.outputAfter f0 -> s = Float.zero).
Proof.
  intros Hbuild Hdim f.
  destruct (EngineFacts.build_fresh b f0 Hbuild) as (_ & _ & Htrees & Hzero).
  destruct (EngineFacts.after_updates_effect stream f0) as (Hd & Ho & Hl & Hu).
  fold f in Hd, Ho, Hl, Hu.
  assert (Hdim' : Engine.has_dimensions f point = true).
  { unfold Engine.has_dimensions in *. now rewrite Hd. }
  rewrite EngineFacts.run_score. unfold Engine.getAnomalyScore. rewrite Hdim'.
  rewrite Hu, Ho, Hzero, Z.add_0_l.
  destruct (Z.ltb_spec (Engine.ingested f0 stream) (Engine.outputAfter f0)) as [Hcold|Hwarm].
  - exists Float.zero. repeat split.
  - exists (Engine.ensemble_score f point). split; [reflexivity|]. split; [|lia].
    apply FloatFacts.nonneg_not_below_zero, EngineFacts.ensemble_score_not_below_zero.
    rewrite Hl. exact Htrees.
Qed.

Lemma score_nonneg_and_cold_start_witness :
  let b := match RandomCutForestModel.__init__ OneLeaf.kwargs2 with
           | RandomCutForestModel.Build b => b
           | RandomCutForestModel.Given _ => []
           end in
  let stream := [[Float.lit_1_0; Float.lit_2_0]] in
  let point := [Float.lit_3_0; Float.lit_3_0] in
  Engine.build b = Normal OneLeaf.fresh_forest /\
  Engine.has_dimensions OneLeaf.fresh_forest point = true /\
  exists s,
    run Engine.forest (RandomCutForestModel.score point)
      (Engine.after_updates OneLeaf.fresh_forest stream) =
    (Normal s, Engine.after_updates OneLeaf.fresh_forest stream) /\
    Float.nonneg s = true /\
    (Engine.ingested OneLeaf.fresh_forest stream < Engine.outputAfter OneLeaf.fresh_forest ->
     s = Float.zero).
Proof.
  intros b stream point.
  assert (H1 : Engine.build b = Normal OneLeaf.fresh_forest) by reflexivity.
  assert (H2 : Engine.has_dimensions OneLeaf.fresh_forest point = true) by reflexivity.
  split; [exact H1|]. split; [exact H2|].
  exact (score_nonneg_and_cold_start _ _ b OneLeaf.fresh_forest stream point H1 H2).
Defined.

(** ** Construction *)

(** The builder [__init__] configures, when it is not handed a forest. *)
Lemma init_builds (F : Type) (kw : RandomCutForestModel.Kwargs F) :
  RandomCutForestModel.forest kw = None ->
  exists b,
    RandomCutForestModel.__init__ kw = RandomCutForestModel.Build b /\
    RandomCutForest.configured RandomCutForest.get_dimensions b =
      Some (arg (RandomCutForestModel.shingle_size kw) 8) /\
    RandomCutForest.configured RandomCutForest.get_numberOfTrees b =
      Some (arg (RandomCutForestModel.num_trees kw) 100) /\
    RandomCutForest.configured RandomCutForest.get_sampleSize b =
      Some (arg (RandomCutForestModel.sample_size kw) 256) /\
    RandomCutForest.configured RandomCutForest.get_timeDecay b =
      Some (arg (RandomCutForestModel.lam kw) Float.lit_0_0001) /\
    RandomCutForest.configured RandomCutForest.get_outputAfter b =
      Some (arg (RandomCutForestModel.output_after kw) 256) /\
    RandomCutForest.configured RandomCutForest.get_parallelExecutionEnabled b =
      Some (arg (RandomCutForestModel.parallel_execution_enabled kw) true) /\
    RandomCutForest.configured RandomCutForest.get_threadPoolSize b =
      RandomCutForestModel.thread_pool_size kw /\
    RandomCutForest.configured RandomCutForest.get_randomSeed b =
      RandomCutForestModel.random_seed kw.
Proof.
  intros Hnone. unfold RandomCutForestModel.__init__. rewrite Hnone.
  eexists. split; [reflexivity|].
  destruct (RandomCutForestModel.thread_pool_size kw);
    destruct (RandomCutForestModel.random_seed kw); repeat split.
Qed.

(** C7, as the code has it.  The constructor has one size parameter,
    [shingle_size] (8 when omitted), which it gives the forest as its
    dimensions; the optional parameters left out are configured as 100
    trees, sample size 256, time decay 0.0001, output after 256 points and
    parallel execution. *)
Theorem init_configuration (F : Type) (kw : RandomCutForestModel.Kwargs F) :
  RandomCutForestModel.forest kw = None ->
  exists b,
    RandomCutForestModel.__init__ kw = RandomCutForestModel.Build b /\
    RandomCutForest.configured RandomCutForest.get_dimensions b =
      Some (arg (RandomCutForestModel.shingle_size kw) 8) /\
    (RandomCutForestModel.num_trees kw = None ->
     RandomCutForest.configured RandomCutForest.get_numberOfTrees b = Some 100) /\
    (RandomCutForestModel.sample_size kw = None ->
     RandomCutForest.configured RandomCutForest.get_sampleSize b = Some 256) /\
    (RandomCutForestModel.lam kw = None ->
     RandomCutForest.configured RandomCutForest.get_timeDecay b = Some Float.lit_0_0001) /\
    (RandomCutForestModel.output_after kw = None ->
     RandomCutForest.configured RandomCutForest.get_outputAfter b = Some 256) /\
    (RandomCutForestModel.parallel_execution_enabled kw = None ->
     RandomCutForest.configured RandomCutForest.get_parallelExecutionEnabled b = Some true).
Proof.
  intros Hnone.
  destruct (init_builds F kw Hnone) as (b & Hb & Hd & Hn & Hs & Ht & Ho & Hp & _).
  exists b. split; [exact Hb|]. split; [exact Hd|].
  repeat split; intros Homitted; rewrite Homitted in *; assumption.
Qed.

Lemma init_configuration_witness :
  RandomCutForestModel.forest OneLeaf.kwargs2 = None /\
  exists b,
    RandomCutForestModel.__init__ OneLeaf.kwargs2 = RandomCutForestModel.Build b /\
    RandomCutForest.configured RandomCutForest.get_dimensions b = Some 2 /\
    RandomCutForest.configured RandomCutForest.get_sampleSize b = Some 256 /\
    RandomCutForest.configured RandomCutForest.get_timeDecay b = Some Float.lit_0_0001.
Proof.
  assert (H : RandomCutForestModel.forest OneLeaf.kwargs2 = None) by reflexivity.
  split; [exact H|].
  destruct (init_configuration _ OneLeaf.kwargs2 H) as (b & Hb & Hd & _ & Hs & Ht & _).
  exists b. repeat split; [exact Hb | exact Hd | exact (Hs eq_refl) | exact (Ht eq_refl)].
Defined.

(** C7, as the spec states it, fails: dimensions cannot be chosen apart from
    the shingle size.  No call of the constructor with shingle size 2 gives a
    forest of 4 dimensions. *)
Lemma init_has_no_separate_dimensions :
  ~ exists kw : RandomCutForestModel.Kwargs unit,
      RandomCutForestModel.forest kw = None /\
      RandomCutForestModel.shingle_size kw = Some 2 /\
      exists b,
        RandomCutForestModel.__init__ kw = RandomCutForestModel.Build b /\
        RandomCutForest.configured RandomCutForest.get_dimensions b = Some 4.
Proof.
  intros (kw & Hnone & Hk & b & Hb & Hd).
  destruct (init_builds unit kw Hnone) as (b' & Hb' & Hd' & _).
  rewrite Hb in Hb'. injection Hb' as <-.
  rewrite Hk in Hd'. cbn in Hd'. congruence.
Qed.

(** C8, on the code.  Whatever [score_differencing] is passed, [__init__]
    does the same: the parameter reaches neither the builder nor the forest
    built.  With the optional parameters left out the builder holds 30 trees,
    sample size 256, output after 256 points and anomaly rate 0.005, no score
    differencing, and the z-factor set on the forest is 2.5. *)
Theorem score_differencing_is_dropped
    (d k : Z) (n o : option Z) (a z x y : option float) (i s : option Z) :
  let kwargs v := {|
    TRandomCutForestModel.rcf_dimensions := d;
    TRandomCutForestModel.shingle_size := k;
    TRandomCutForestModel.num_trees := n;
    TRandomCutForestModel.output_after := o;
    TRandomCutForestModel.anomaly_rate := a;
    TRandomCutForestModel.z_factor := z;
    TRandomCutForestModel.score_differencing := v;
    TRandomCutForestModel.ignore_delta_threshold := i;
    TRandomCutForestModel.sample_size := s |} in
  TRandomCutForestModel.__init__ (kwargs x) = TRandomCutForestModel.__init__ (kwargs y) /\
  (forall c, TRandomCutForestModel.__init__ (kwargs x) = Normal c ->
     ThresholdedRandomCutForest.configured ThresholdedRandomCutForest.get_scoreDifferencing
       (TRandomCutForestModel.built_from c) = None) /\
  (exists c,
     TRandomCutForestModel.__init__
       {| TRandomCutForestModel.rcf_dimensions := d;
          TRandomCutForestModel.shingle_size := k;
          TRandomCutForestModel.num_trees := None;
          TRandomCutForestModel.output_after := None;
          TRandomCutForestModel.anomaly_rate := None;
          TRandomCutForestModel.z_factor := None;
          TRandomCutForestModel.score_differencing := None;
          TRandomCutForestModel.ignore_delta_threshold := None;
          TRandomCutForestModel.sample_size := None |} = Normal c /\
     let b := TRandomCutForestModel.built_from c in
     ThresholdedRandomCutForest.configured ThresholdedRandomCutForest.get_numberOfTrees b
       = Some 30 /\
     ThresholdedRandomCutForest.configured ThresholdedRandomCutForest.get_sampleSize b
       = Some 256 /\
     ThresholdedRandomCutForest.configured ThresholdedRandomCutForest.get_outputAfter b
       = Some 256 /\
     ThresholdedRandomCutForest.configured ThresholdedRandomCutForest.get_anomalyRate b
       = Some Float.lit_0_005 /\
     ThresholdedRandomCutForest.configured ThresholdedRandomCutForest.get_scoreDifferencing b
       = None /\
     TRandomCutForestModel.then_calls c =
       call (ThresholdedRandomCutForest.setZfactor Float.lit_2_5)).
Proof.
  intros kwargs. split; [reflexivity|]. split.
  - intros c. unfold TRandomCutForestModel.__init__. cbn.
    destruct (int_mul_float _ _) as [scaled|e]; [|discriminate]. cbn.
    destruct (float_div_int _ _) as [fraction|e]; [|discriminate]. cbn.
    intros [= <-]. reflexivity.
  - eexists. split; [vm_compute; reflexivity|]. cbn. repeat split.
Qed.

(** ** forecast *)

(** C9.  [forecast] asks the forest for one step of extrapolation and
    returns the first value of the answer.  On a forest built and then fed
    any stream of updates, the answer for a point of the forest's
    dimensionality holds exactly one value: the median of the values the
    trees impute for the slot after the shingle. *)
Theorem forecast_is_one_step
    (T : Type) (tree_contract : Engine.RandomCutTree T)
    (b : RandomCutForest.Builder) (f0 : Engine.Forest)
    (stream : list Point) (point : Point) :
  Engine.build b = Normal f0 ->
  Engine.has_dimensions f0 point = true ->
  let f := Engine.after_updates f0 stream in
  let kept := (length point - 1)%nat in
  let shifted := skipn 1 point ++ [Float.nan] in
  let next :=
    Engine.median
      (map (fun t => nth kept (Engine.tree_impute t shifted [kept]) Float.nan)
         (Engine.trees f)) in
  (forall (S : Type) (h : Handler RandomCutForest.Method S) (s : S),
     run h (RandomCutForestModel.forecast point) s =
     match h _ (RandomCutForest.extrapolateBasic point 1 1 false 0) s with
     | (Normal (v :: _), s') => (Normal v, s')
     | (Normal [], s') => (Thrown IndexError, s')
     | (Thrown e, s') => (Thrown e, s')
     end) /\
  Engine.extrapolateBasic f point 1 1 false 0 = Normal [next] /\
  run Engine.forest (RandomCutForestModel.forecast point) f = (Normal next, f).
Proof.
  intros Hbuild Hdim f kept shifted next.
  destruct (EngineFacts.build_fresh b f0 Hbuild) as (_ & Hpos & _ & _).
  destruct (EngineFacts.after_updates_effect stream f0) as (Hd & _ & _ & _).
  fold f in Hd.
  assert (Hdim' : Engine.has_dimensions f point = true).
  { unfold Engine.has_dimensions in *. now rewrite Hd. }
  assert (Hne : point <> []).
  { unfold Engine.has_dimensions in Hdim. apply Z.eqb_eq in Hdim.
    intros ->. simpl in Hdim. lia. }
  assert (Hanswer : Engine.extrapolateBasic f point 1 1 false 0 = Normal [next]).
  { unfold Engine.extrapolateBasic. rewrite Hdim', Hd.
    destruct (Z.leb_spec 1 (Engine.dimensions f0)) as [_|]; [|lia].
    cbn [andb Z.leb Z.ltb Z.compare Z.to_nat Pos.to_nat Pos.iter_op Nat.add].
    rewrite (EngineFacts.extrapolate_one_step f point Hne). reflexivity. }
  split; [intros S h s; apply EngineFacts.run_forecast|].
  split; [exact Hanswer|].
  rewrite EngineFacts.run_forecast. cbn [Engine.forest]. rewrite Hanswer. reflexivity.
Qed.

Lemma forecast_is_one_step_witness :
  let b := match RandomCutForestModel.__init__ OneLeaf.kwargs2 with
           | RandomCutForestModel.Build b => b
           | RandomCutForestModel.Given _ => []
           end in
  let stream := [[Float.lit_1_0; Float.lit_2_0]] in
  let point := [Float.lit_3_0; Float.lit_3_0] in
  Engine.build b = Normal OneLeaf.fresh_forest /\
  Engine.has_dimensions OneLeaf.fresh_forest point = true /\
  run Engine.forest (RandomCutForestModel.forecast point)
    (Engine.after_updates OneLeaf.fresh_forest stream) =
  (Normal Float.lit_2_0, Engine.after_updates OneLeaf.fresh_forest stream).
Proof.
  intros b stream point.
  assert (H1 : Engine.build b = Normal OneLeaf.fresh_forest) by reflexivity.
  assert (H2 : Engine.has_dimensions OneLeaf.fresh_forest point = true) by reflexivity.
  split; [exact H1|]. split; [exact H2|].
  exact (proj2 (proj2 (forecast_is_one_step _ _ b OneLeaf.fresh_forest stream point H1 H2))).
Defined.

(** ** shingle_size *)

(** C10.  A model that built its own forest with shingle size [k] ([8] when
    omitted) reports [k] as its [shingle_size], which is the forest's
    dimensions as the builder was given them; updates do not change it. *)
Theorem shingle_size_reads_back
    (T : Type) (tree_contract : Engine.RandomCutTree T)
    (kw : RandomCutForestModel.Kwargs Engine.Forest) (f0 : Engine.Forest)
    (stream : list Point) :
  RandomCutForestModel.forest kw = None ->
  Engine.construct (RandomCutForestModel.__init__ kw) = Normal f0 ->
  let k := arg (RandomCutForestModel.shingle_size kw) 8 in
  let f := Engine.after_updates f0 stream in
  (exists b,
     RandomCutForestModel.__init__ kw = RandomCutForestModel.Build b /\
     RandomCutForest.configured RandomCutForest.get_dimensions b = Some k) /\
  Engine.dimensions f = k /\
  run Engine.forest RandomCutForestModel.shingle_size_property f = (Normal k, f).
Proof.
  intros Hnone Hbuilt k f.
  destruct (init_builds _ kw Hnone) as (b & Hb & Hd & _).
  rewrite Hb in Hbuilt. cbn in Hbuilt.
  destruct (EngineFacts.build_fresh b f0 Hbuilt) as (Hd0 & _).
  destruct (EngineFacts.after_updates_effect stream f0) as (Hdf & _).
  fold f in Hdf.
  assert (Hk : Engine.dimensions f = k) by (unfold k; congruence).
  split; [exists b; split; assumption|]. split; [exact Hk|].
  unfold RandomCutForestModel.shingle_size_property. rewrite run_call. cbn.
  now rewrite Hk.
Qed.

Lemma shingle_size_reads_back_witness :
  let stream := [[Float.lit_1_0; Float.lit_2_0]] in
  RandomCutForestModel.forest OneLeaf.kwargs2 = None /\
  Engine.construct (RandomCutForestModel.__init__ OneLeaf.kwargs2) = Normal OneLeaf.fresh_forest /\
  run Engine.forest RandomCutForestModel.shingle_size_property
    (Engine.after_updates OneLeaf.fresh_forest stream) =
  (Normal 2, Engine.after_updates OneLeaf.fresh_forest stream).
Proof.
  intros stream.
  assert (H1 : RandomCutForestModel.forest OneLeaf.kwargs2 = None) by reflexivity.
  assert (H2 : Engine.construct (RandomCutForestModel.__init__ OneLeaf.kwargs2)
               = Normal OneLeaf.fresh_forest) by reflexivity.
  split; [exact H1|]. split; [exact H2|].
  exact (proj2 (proj2 (shingle_size_reads_back _ _ OneLeaf.kwargs2 OneLeaf.fresh_forest
                         stream H1 H2))).
Defined.

(* ===================================================================== *)
(** * Further properties of the binding *)
(* ===================================================================== *)

(** ** impute *)

Lemma seq_strongly_sorted (len : nat) : forall start, StronglySorted lt (seq start len).
Proof.
  induction len as [|len IH]; intros start; cbn; constructor; [apply IH|].
  apply Forall_forall. intros i Hi. apply in_seq in Hi. lia.
Qed.

Lemma filter_strongly_sorted {A} (R : A -> A -> Prop) (keep : A -> bool) (xs : list A) :
  StronglySorted R xs -> StronglySorted R (filter keep xs).
Proof.
  induction 1 as [|x rest Hsorted IH Hall]; cbn; [constructor|].
  destruct (keep x); [|exact IH]. constructor; [exact IH|].
  rewrite Forall_forall in *. intros y Hy. apply Hall. apply filter_In in Hy. tauto.
Qed.

Lemma of_nat_strongly_sorted (xs : list nat) :
  StronglySorted lt xs -> StronglySorted Z.lt (map Z.of_nat xs).
Proof.
  induction 1 as [|x rest Hsorted IH Hall]; cbn; constructor; [exact IH|].
  rewrite Forall_forall in *. intros z Hz. apply in_map_iff in Hz as (y & <- & Hy).
  specialize (Hall y Hy). lia.
Qed.

(** X2.  For a point that holds a NaN, [impute] makes one call,
    [imputeMissingValues(point, n, indexes)], in which [n] is the number of
    indexes, at least 1 and at most the length of the point, and the indexes
    are strictly increasing positions of the point. *)
Theorem impute_call_is_well_formed (point : Point) :
  (exists x, In x point /\ Float.isnan x = true) ->
  exists (n : Z) (indexes : list Z),
    RandomCutForestModel.impute point =
      Call (RandomCutForest.imputeMissingValues point n indexes) (fun answer => Ret answer) /\
    n = Z.of_nat (length indexes) /\
    1 <= n <= Z.of_nat (length point) /\
    StronglySorted Z.lt indexes /\
    Forall (fun i => 0 <= i < Z.of_nat (length point)) indexes.
Proof.
  intros (x & Hx & Hnan).
  assert (Hsum : Numpy.sum (Numpy.isnan point) <> 0).
  { intros H0. rewrite NumpyFacts.sum_zero in H0.
    specialize (H0 (Float.isnan x) (in_map Float.isnan point x Hx)). congruence. }
  exists (Numpy.sum (Numpy.isnan point)), (Numpy.argwhere (Numpy.isnan point)).
  split.
  { unfold RandomCutForestModel.impute.
    destruct (Z.eqb_spec (Numpy.sum (Numpy.isnan point)) 0); [contradiction|reflexivity]. }
  pose proof (NumpyFacts.sum_nonneg (Numpy.isnan point)) as Hnonneg.
  rewrite NumpyFacts.argwhere_isnan, NumpyFacts.sum_isnan, length_map in *.
  split; [reflexivity|]. split.
  { split; [lia|]. apply inj_le. unfold Spec.missing_dimensions.
    etransitivity; [apply filter_length_le|]. rewrite length_seq. reflexivity. }
  split.
  - apply of_nat_strongly_sorted, filter_strongly_sorted, seq_strongly_sorted.
  - apply Forall_forall. intros i Hi. apply in_map_iff in Hi as (j & <- & Hj).
    apply NumpyFacts.missing_dimensions_exact in Hj. lia.
Qed.

Lemma impute_call_is_well_formed_witness :
  (exists x, In x [Float.lit_1_0; Float.nan; Float.nan] /\ Float.isnan x = true) /\
  exists (n : Z) (indexes : list Z),
    RandomCutForestModel.impute [Float.lit_1_0; Float.nan; Float.nan] =
      Call (RandomCutForest.imputeMissingValues [Float.lit_1_0; Float.nan; Float.nan] n indexes)
        (fun answer => Ret answer) /\
    n = Z.of_nat (length indexes) /\
    1 <= n <= 3 /\
    StronglySorted Z.lt indexes.
Proof.
  assert (H : exists x, In x [Float.lit_1_0; Float.nan; Float.nan] /\ Float.isnan x = true)
    by (exists Float.nan; split; [right; left|]; reflexivity).
  split; [exact H|].
  destruct (impute_call_is_well_formed [Float.lit_1_0; Float.nan; Float.nan] H)
    as (n & indexes & Hcall & Hn & Hrange & Hsorted & _).
  exists n, indexes. repeat split; try assumption; apply Hrange.
Defined.

Lemma sum_shows_nan (point : Point) :
  Numpy.sum (Numpy.isnan point) <> 0 -> exists x, In x point /\ Float.isnan x = true.
Proof.
  induction point as [|y rest IH]; cbn; [contradiction|].
  destruct (Float.isnan y) eqn:Hy.
  - intros _. exists y. split; [now left|exact Hy].
  - rewrite Z.add_0_l. intros Hrest. destruct (IH Hrest) as (x & Hx & Hnan).
    exists x. split; [now right|exact Hnan].
Qed.

(** X3.  [impute] answers by itself, with the point it was given, exactly
    when no coordinate of the point is NaN; and it consults the forest, with
    one call of [imputeMissingValues] whose answer it returns, exactly when
    some coordinate is NaN. *)
Theorem impute_answers_alone_iff_complete (point : Point) :
  (RandomCutForestModel.impute point = Ret point <->
   (forall x, In x point -> Float.isnan x = false)) /\
  ((exists n indexes,
      RandomCutForestModel.impute point =
      Call (RandomCutForest.imputeMissingValues point n indexes)
        (fun answer => Ret answer)) <->
   (exists x, In x point /\ Float.isnan x = true)).
Proof.
  assert (Hcases :
    (Numpy.sum (Numpy.isnan point) = 0 /\ RandomCutForestModel.impute point = Ret point) \/
    (Numpy.sum (Numpy.isnan point) <> 0 /\
     RandomCutForestModel.impute point =
     Call (RandomCutForest.imputeMissingValues point (Numpy.sum (Numpy.isnan point))
             (Numpy.argwhere (Numpy.isnan point))) (fun answer => Ret answer))).
  { unfold RandomCutForestModel.impute.
    destruct (Z.eqb_spec (Numpy.sum (Numpy.isnan point)) 0) as [H0|H0];
      [left|right]; split; auto. }
  destruct Hcases as [[H0 Halone]|[H0 Hcall]].
  - assert (Hnone : forall x, In x point -> Float.isnan x = false).
    { intros x Hx. rewrite NumpyFacts.sum_zero in H0. apply H0. now apply in_map. }
    split; [tauto|]. split.
    + intros (n & indexes & Hcall). rewrite Halone in Hcall. discriminate Hcall.
    + intros (x & Hx & Hnan). rewrite (Hnone x Hx) in Hnan. discriminate Hnan.
  - pose proof (sum_shows_nan point H0) as Hsome.
    split; [split|split].
    + intros Halone. rewrite Hcall in Halone. discriminate Halone.
    + intros Hnone. destruct Hsome as (x & Hx & Hnan).
      rewrite (Hnone x Hx) in Hnan. discriminate Hnan.
    + intros _. exact Hsome.
    + intros _. eexists. eexists. exact Hcall.
Qed.

(** ** Which methods can change the forest *)

Lemma no_update_keeps_state {S R} (h : Handler RandomCutForest.Method S)
    (m : Prog RandomCutForest.Method R) :
  queries_read_only h -> NoUpdate m -> forall s, snd (run h m s) = s.
Proof.
  intros Hread. induction 1 as [r|e|X c k Hc Hk IH]; intros s; cbn; try reflexivity.
  pose proof (Hread X c s Hc) as Hsame.
  destruct (h X c s) as [[x|e] s']; cbn in *; subst s'; [apply IH | reflexivity].
Qed.

Lemma no_update_first_call {R} (m : Prog RandomCutForest.Method R) :
  NoUpdate m ->
  match m with
  | Call c _ => is_update c
  | _ => false
  end = false.
Proof. destruct 1; auto. Qed.

(** X4.  [score], [impute], [forecast] and [shingle_size] never call
    [update], whatever the forest answers; [update] does.  So on a forest
    whose queries are read-only these four leave the forest as it was,
    whether they return or raise. *)
Theorem queries_never_update
    (S : Type) (h : Handler RandomCutForest.Method S) (s : S) (point : Point) :
  queries_read_only h ->
  (NoUpdate (RandomCutForestModel.score point) /\
   NoUpdate (RandomCutForestModel.impute point) /\
   NoUpdate (RandomCutForestModel.forecast point) /\
   NoUpdate RandomCutForestModel.shingle_size_property /\
   ~ NoUpdate (RandomCutForestModel.update point)) /\
  snd (run h (RandomCutForestModel.score point) s) = s /\
  snd (run h (RandomCutForestModel.impute point) s) = s /\
  snd (run h (RandomCutForestModel.forecast point) s) = s /\
  snd (run h RandomCutForestModel.shingle_size_property s) = s.
Proof.
  intros Hread.
  assert (Hscore : NoUpdate (RandomCutForestModel.score point)).
  { constructor; [reflexivity|]. intros x. constructor. }
  assert (Himpute : NoUpdate (RandomCutForestModel.impute point)).
  { unfold RandomCutForestModel.impute.
    destruct (Numpy.sum (Numpy.isnan point) =? 0); [constructor|].
    cbn. constructor; [reflexivity|]. intros x. constructor. }
  assert (Hforecast : NoUpdate (RandomCutForestModel.forecast point)).
  { cbn. constructor; [reflexivity|]. intros [|v rest]; cbn; constructor. }
  assert (Hshingle : NoUpdate RandomCutForestModel.shingle_size_property).
  { constructor; [reflexivity|]. intros x. constructor. }
  split; [|repeat split; apply no_update_keeps_state; assumption].
  repeat split; try assumption.
  intros Hupdate. apply no_update_first_call in Hupdate. discriminate Hupdate.
Qed.

Lemma queries_never_update_witness :
  queries_read_only (Engine.forest (T := OneLeaf.Tree)) /\
  snd (run Engine.forest (RandomCutForestModel.impute [Float.nan; Float.lit_3_0])
         OneLeaf.primed_forest) = OneLeaf.primed_forest /\
  snd (run Engine.forest (RandomCutForestModel.forecast [Float.lit_3_0])
         OneLeaf.primed_forest) = OneLeaf.primed_forest.
Proof.
  assert (H : queries_read_only (Engine.forest (T := OneLeaf.Tree))).
  { intros X c s. destruct c; cbn; intros Hc; [reflexivity|discriminate| | |]; reflexivity. }
  split; [exact H|].
  split.
  - exact (proj1 (proj2 (proj2 (queries_never_update _ Engine.forest OneLeaf.primed_forest
                                  [Float.nan; Float.lit_3_0] H)))).
  - exact (proj1 (proj2 (proj2 (proj2 (queries_never_update _ Engine.forest
                                         OneLeaf.primed_forest [Float.lit_3_0] H))))).
Defined.

(* ===================================================================== *)
(** * Exact binary64 results *)
(* ===================================================================== *)

Module FloatExact.

(** A float in canonical form with a full mantissa: 53 digits at an exponent
    of the normal range. *)
Lemma round_aux_keeps_canonical (sign : bool) (m : positive) (e : Z) :
  Zpos (digits2_pos m) = 53 -> -1074 <= e <= 971 ->
  binary_round_aux Float.prec Float.emax sign (Zpos m) e loc_Exact = S754_finite sign m e.
Proof.
  intros Hd He.
  unfold binary_round_aux, shr_fexp. simpl Zdigits2.
  match goal with
  | |- context [shr _ e ?n] =>
      replace n with 0 by (unfold fexp, emin, Float.prec, Float.emax; lia)
  end.
  cbn [shr shr_record_of_loc loc_of_shr_record round_nearest_even shr_m Zdigits2].
  match goal with
  | |- context [shr _ e ?n] =>
      replace n with 0 by (unfold fexp, emin, Float.prec, Float.emax; lia)
  end.
  cbn [shr shr_m].
  destruct (Z.leb_spec e (Float.emax - Float.prec)); [reflexivity|].
  unfold Float.emax, Float.prec in *. lia.
Qed.

Lemma round_of_small (sign : bool) (p : positive) :
  Zpos p < 2 ^ 53 ->
  exists m e,
    binary_round Float.prec Float.emax sign p 0 = S754_finite sign m e /\
    Zpos (digits2_pos m) = 53 /\ -52 <= e <= 0.
Proof.
  intros H1.
  pose proof (FloatFacts.digits2_bound p 53 ltac:(lia) H1) as Hd.
  assert (0 < Zpos (digits2_pos p)) by lia.
  unfold binary_round, shl_align.
  assert (Hf : fexp Float.prec Float.emax (Zpos (digits2_pos p) + 0) = Zpos (digits2_pos p) - 53).
  { unfold fexp, emin, Float.prec, Float.emax. lia. }
  rewrite Hf.
  destruct (Zpos (digits2_pos p) - 53 - 0) as [|k|k] eqn:Hk; try lia.
  - exists p, 0. split; [apply round_aux_keeps_canonical; lia|]. lia.
  - exists (Pos.iter xO p k), (Zpos (digits2_pos p) - 53).
    assert (Hdk : Zpos (digits2_pos (Pos.iter xO p k)) = 53)
      by (rewrite FloatFacts.digits2_iter_xO; lia).
    split; [apply round_aux_keeps_canonical; lia|]. lia.
Qed.

(** The double of a non-zero integer of magnitude below 2^53 is finite, of
    the integer's sign, and in canonical form. *)
Lemma of_Z_canonical (z : Z) :
  z <> 0 -> - 2 ^ 53 < z < 2 ^ 53 ->
  exists m e,
    Float.of_Z z = S754_finite (z <? 0) m e /\
    Zpos (digits2_pos m) = 53 /\ -52 <= e <= 0.
Proof.
  intros Hz Hrange. unfold Float.of_Z, binary_normalize.
  destruct z as [|p|p]; [contradiction| |].
  - apply round_of_small. lia.
  - apply round_of_small. lia.
Qed.

Lemma float_of_int_in_range (n : Z) :
  - 2 ^ 53 < n < 2 ^ 53 ->
  float_of_int n = Normal (Float.of_Z n) /\
  (Float.is_zero (Float.of_Z n) = true <-> n = 0).
Proof.
  intros Hrange. unfold float_of_int.
  destruct (Z.eq_dec n 0) as [->|Hn].
  - split; [reflexivity|]. split; reflexivity.
  - destruct (of_Z_canonical n Hn Hrange) as (m & e & -> & _).
    split; [reflexivity|]. split; [discriminate|contradiction].
Qed.

(** Times 1.0 and divided by itself. *)
Lemma mul_one (m : positive) (e : Z) :
  Zpos (digits2_pos m) = 53 -> -52 <= e <= 0 ->
  Float.mul (S754_finite false m e) Float.lit_1_0 = S754_finite false m e.
Proof.
  intros Hd He. unfold Float.mul, Float.lit_1_0, SFmul. cbn [xorb].
  rewrite Pos.mul_comm. cbn [Pos.mul].
  unfold binary_round_aux, shr_fexp. cbn [Zdigits2 digits2_pos].
  match goal with
  | |- context [shr _ _ ?n] =>
      replace n with 52 by (unfold fexp, emin, Float.prec, Float.emax; lia)
  end.
  cbn [shr iter_pos shr_1 shr_record_of_loc loc_of_shr_record round_nearest_even shr_m
       shr_r shr_s orb Zdigits2].
  match goal with
  | |- context [shr _ ?e' ?n] =>
      replace n with 0 by (unfold fexp, emin, Float.prec, Float.emax; lia)
  end.
  cbn [shr shr_m].
  match goal with
  | |- (if ?e' <=? ?b then _ else _) = _ =>
      replace e' with e by lia;
      destruct (Z.leb_spec e b); [reflexivity|unfold Float.emax, Float.prec in *; lia]
  end.
Qed.

Lemma div_self (m : positive) (e : Z) :
  Zpos (digits2_pos m) = 53 ->
  Float.div (S754_finite false m e) (S754_finite false m e) = Float.lit_1_0.
Proof.
  intros Hd. unfold Float.div, SFdiv. cbn [xorb].
  assert (Hcore : SFdiv_core_binary Float.prec Float.emax (Zpos m) e (Zpos m) e
                  = (2 ^ 53, -53, loc_Exact)).
  { unfold SFdiv_core_binary. cbn [Zdigits2].
    match goal with
    | |- context [Z.min ?a ?b] =>
        replace (Z.min a b) with (-53)
          by (unfold fexp, emin, Float.prec, Float.emax; lia)
    end.
    replace (e - e - -53) with 53 by lia.
    rewrite Z.shiftl_mul_pow2 by lia.
    assert (Hq : Z.div_eucl (Zpos m * 2 ^ 53) (Zpos m) = (2 ^ 53, 0)).
    { pose proof (Z.div_mul (2 ^ 53) (Zpos m) ltac:(lia)) as Hdiv.
      pose proof (Z.mod_mul (2 ^ 53) (Zpos m) ltac:(lia)) as Hmod.
      rewrite (Z.mul_comm (2 ^ 53)) in Hdiv, Hmod.
      unfold Z.div, Z.modulo in Hdiv, Hmod.
      destruct (Z.div_eucl (Zpos m * 2 ^ 53) (Zpos m)) as [q r]. congruence. }
    rewrite Hq. unfold new_location, new_location_even, new_location_odd.
    destruct (Z.even (Zpos m)); reflexivity. }
  rewrite Hcore. reflexivity.
Qed.

Lemma mul_not_below_zero (x : float) (m : positive) (e : Z) :
  Float.not_below_zero x -> Float.not_below_zero (Float.mul x (S754_finite false m e)).
Proof.
  destruct x as [sx|sx| |sx mx ex]; try destruct sx; cbn; auto; try tauto.
  intros _. apply FloatFacts.binary_round_aux_not_below_zero. lia.
Qed.

End FloatExact.

(** ** TRandomCutForestModel.__init__ *)

(** The settings [__init__] makes, oldest last, for an accept fraction
    already computed. *)
Lemma init_in_range (kw : TRandomCutForestModel.Kwargs) :
  let o := arg (TRandomCutForestModel.output_after kw) 256 in
  let s := arg (TRandomCutForestModel.sample_size kw) 256 in
  - 2 ^ 53 < o < 2 ^ 53 -> - 2 ^ 53 < s < 2 ^ 53 ->
  TRandomCutForestModel.__init__ kw =
  if s =? 0 then Thrown ZeroDivisionError
  else
    Normal {|
      TRandomCutForestModel.built_from :=
        [ThresholdedRandomCutForest.autoAdjust true;
         ThresholdedRandomCutForest.alertOnce true;
         ThresholdedRandomCutForest.transformMethod ThresholdedRandomCutForest.NORMALIZE;
         ThresholdedRandomCutForest.internalShinglingEnabled true;
         ThresholdedRandomCutForest.outputAfter o;
         ThresholdedRandomCutForest.anomalyRate
           (arg (TRandomCutForestModel.anomaly_rate kw) Float.lit_0_005);
         ThresholdedRandomCutForest.shingleSize (TRandomCutForestModel.shingle_size kw);
         ThresholdedRandomCutForest.boundingBoxCacheFraction (Float.of_Z 1);
         ThresholdedRandomCutForest.precision ThresholdedRandomCutForest.FLOAT_32;
         ThresholdedRandomCutForest.compact true;
         ThresholdedRandomCutForest.parallelExecutionEnabled true;
         ThresholdedRandomCutForest.initialAcceptFraction
           (Float.div (Float.mul (Float.of_Z o) Float.lit_1_0) (Float.of_Z s));
         ThresholdedRandomCutForest.timeDecay Float.lit_0_0001;
         ThresholdedRandomCutForest.numberOfTrees
           (arg (TRandomCutForestModel.num_trees kw) 30);
         ThresholdedRandomCutForest.sampleSize s;
         ThresholdedRandomCutForest.dimensions (TRandomCutForestModel.rcf_dimensions kw)];
      TRandomCutForestModel.then_calls :=
        call (ThresholdedRandomCutForest.setZfactor
                (arg (TRandomCutForestModel.z_factor kw) Float.lit_2_5))
    |}.
Proof.
  intros o s Ho Hs. unfold TRandomCutForestModel.__init__. fold o. fold s.
  destruct (FloatExact.float_of_int_in_range o Ho) as [Hfo _].
  destruct (FloatExact.float_of_int_in_range s Hs) as [Hfs Hzero].
  unfold int_mul_float, float_div_int. rewrite Hfo, Hfs. cbn [outcome_bind].
  destruct (Z.eqb_spec s 0) as [H0|H0].
  - rewrite (proj2 Hzero H0). reflexivity.
  - destruct (Float.is_zero (Float.of_Z s)); [|reflexivity].
    exfalso. apply H0, Hzero. reflexivity.
Qed.

(** X6.  With [output_after] and [sample_size] of magnitude below 2^53,
    [__init__] raises [ZeroDivisionError] exactly when [sample_size] is 0,
    before anything is built, and succeeds for every other sample size. *)
Theorem init_fails_on_zero_sample_size (kw : TRandomCutForestModel.Kwargs) :
  let o := arg (TRandomCutForestModel.output_after kw) 256 in
  let s := arg (TRandomCutForestModel.sample_size kw) 256 in
  - 2 ^ 53 < o < 2 ^ 53 -> - 2 ^ 53 < s < 2 ^ 53 ->
  (TRandomCutForestModel.__init__ kw = Thrown ZeroDivisionError <-> s = 0) /\
  ((exists c, TRandomCutForestModel.__init__ kw = Normal c) <-> s <> 0).
Proof.
  intros o s Ho Hs. rewrite (init_in_range kw Ho Hs). fold s.
  destruct (Z.eqb_spec s 0) as [H0|H0]; split; split; intros H;
    try tauto; try discriminate H; try (destruct H; discriminate); try contradiction.
  eexists. reflexivity.
Qed.

Lemma init_fails_on_zero_sample_size_witness :
  let kw := {|
    TRandomCutForestModel.rcf_dimensions := 4;
    TRandomCutForestModel.shingle_size := 2;
    TRandomCutForestModel.num_trees := None;
    TRandomCutForestModel.output_after := None;
    TRandomCutForestModel.anomaly_rate := None;
    TRandomCutForestModel.z_factor := None;
    TRandomCutForestModel.score_differencing := None;
    TRandomCutForestModel.ignore_delta_threshold := None;
    TRandomCutForestModel.sample_size := Some 0 |} in
  - 2 ^ 53 < 256 < 2 ^ 53 /\ - 2 ^ 53 < 0 < 2 ^ 53 /\
  TRandomCutForestModel.__init__ kw = Thrown ZeroDivisionError.
Proof.
  intros kw.
  assert (H1 : - 2 ^ 53 < 256 < 2 ^ 53) by lia.
  assert (H2 : - 2 ^ 53 < 0 < 2 ^ 53) by lia.
  split; [exact H1|]. split; [exact H2|].
  exact (proj2 (proj1 (init_fails_on_zero_sample_size kw H1 H2)) eq_refl).
Defined.

Lemma fraction_of (kw : TRandomCutForestModel.Kwargs)
    (c : TRandomCutForestModel.Construction) (x : float) :
  let o := arg (TRandomCutForestModel.output_after kw) 256 in
  let s := arg (TRandomCutForestModel.sample_size kw) 256 in
  - 2 ^ 53 < o < 2 ^ 53 -> - 2 ^ 53 < s < 2 ^ 53 -> s <> 0 ->
  TRandomCutForestModel.__init__ kw = Normal c ->
  In (ThresholdedRandomCutForest.initialAcceptFraction x)
     (TRandomCutForestModel.built_from c) ->
  x = Float.div (Float.mul (Float.of_Z o) Float.lit_1_0) (Float.of_Z s).
Proof.
  intros o s Ho Hs Hne Hinit Hin. rewrite (init_in_range kw Ho Hs) in Hinit. fold s in Hinit.
  destruct (Z.eqb_spec s 0) as [|_]; [contradiction|].
  injection Hinit as <-. cbn [TRandomCutForestModel.built_from] in Hin.
  repeat (destruct Hin as [Hin|Hin]; [try discriminate Hin; try (now injection Hin)|]).
  destruct Hin.
Qed.

(** X8.  With [0 <= output_after] and [0 < sample_size], both below 2^53,
    the accept fraction [__init__] gives the builder is a number at or above
    zero, never NaN. *)
Theorem initial_accept_fraction_nonneg
    (kw : TRandomCutForestModel.Kwargs) (c : TRandomCutForestModel.Construction)
    (x : float) :
  let o := arg (TRandomCutForestModel.output_after kw) 256 in
  let s := arg (TRandomCutForestModel.sample_size kw) 256 in
  0 <= o < 2 ^ 53 -> 0 < s < 2 ^ 53 ->
  TRandomCutForestModel.__init__ kw = Normal c ->
  In (ThresholdedRandomCutForest.initialAcceptFraction x)
     (TRandomCutForestModel.built_from c) ->
  Float.nonneg x = true /\ Float.isnan x = false.
Proof.
  intros o s Ho Hs Hinit Hin.
  rewrite (fraction_of kw c x ltac:(fold o; lia) ltac:(fold s; lia) ltac:(fold s; lia)
             Hinit Hin).
  fold o s.
  destruct (FloatExact.of_Z_canonical s ltac:(lia) ltac:(lia)) as (m & e & Hfs & _).
  replace (s <? 0) with false in Hfs by (symmetry; apply Z.ltb_ge; lia).
  rewrite Hfs.
  assert (Hshape : Float.not_below_zero
            (Float.div (Float.mul (Float.of_Z o) Float.lit_1_0) (S754_finite false m e))).
  { apply FloatFacts.div_not_below_zero. unfold Float.lit_1_0.
    apply FloatExact.mul_not_below_zero, FloatFacts.of_Z_not_below_zero. lia. }
  split; [apply FloatFacts.nonneg_not_below_zero, Hshape|].
  destruct (Float.div _ _) as [| | |]; cbn in *; auto. contradiction.
Qed.

Lemma initial_accept_fraction_nonneg_witness :
  let kw := {|
    TRandomCutForestModel.rcf_dimensions := 4;
    TRandomCutForestModel.shingle_size := 2;
    TRandomCutForestModel.num_trees := None;
    TRandomCutForestModel.output_after := Some 32;
    TRandomCutForestModel.anomaly_rate := None;
    TRandomCutForestModel.z_factor := None;
    TRandomCutForestModel.score_differencing := None;
    TRandomCutForestModel.ignore_delta_threshold := None;
    TRandomCutForestModel.sample_size := Some 256 |} in
  let x := Float.div (Float.mul (Float.of_Z 32) Float.lit_1_0) (Float.of_Z 256) in
  exists c,
    TRandomCutForestModel.__init__ kw = Normal c /\
    In (ThresholdedRandomCutForest.initialAcceptFraction x)
       (TRandomCutForestModel.built_from c) /\
    Float.nonneg x = true /\ Float.isnan x = false.
Proof.
  intros kw x.
  assert (H : exists c, TRandomCutForestModel.__init__ kw = Normal c /\
                        In (ThresholdedRandomCutForest.initialAcceptFraction x)
                           (TRandomCutForestModel.built_from c)).
  { eexists. split; [vm_compute; reflexivity|].
    cbn [TRandomCutForestModel.built_from]. do 11 right. left. reflexivity. }
  destruct H as (c & Hc & Hin). exists c. split; [exact Hc|]. split; [exact Hin|].
  exact (initial_accept_fraction_nonneg kw c x ltac:(cbn; lia) ltac:(cbn; lia) Hc Hin).
Defined.

(** X9.  When [output_after] equals [sample_size], a positive integer below
    2^53, as with the defaults 256 and 256, the accept fraction given to the
    builder is exactly 1.0. *)
Theorem initial_accept_fraction_one
    (kw : TRandomCutForestModel.Kwargs) (c : TRandomCutForestModel.Construction)
    (x : float) :
  let o := arg (TRandomCutForestModel.output_after kw) 256 in
  let s := arg (TRandomCutForestModel.sample_size kw) 256 in
  o = s -> 0 < s < 2 ^ 53 ->
  TRandomCutForestModel.__init__ kw = Normal c ->
  In (ThresholdedRandomCutForest.initialAcceptFraction x)
     (TRandomCutForestModel.built_from c) ->
  x = Float.lit_1_0.
Proof.
  intros o s Hsame Hs Hinit Hin.
  rewrite (fraction_of kw c x ltac:(fold o; lia) ltac:(fold s; lia) ltac:(fold s; lia)
             Hinit Hin).
  fold o s. rewrite Hsame.
  destruct (FloatExact.of_Z_canonical s ltac:(lia) ltac:(lia)) as (m & e & Hfs & Hd & He).
  replace (s <? 0) with false in Hfs by (symmetry; apply Z.ltb_ge; lia).
  rewrite Hfs, (FloatExact.mul_one m e Hd He). apply FloatExact.div_self, Hd.
Qed.

Lemma initial_accept_fraction_one_witness :
  let kw := {|
    TRandomCutForestModel.rcf_dimensions := 4;
    TRandomCutForestModel.shingle_size := 2;
    TRandomCutForestModel.num_trees := None;
    TRandomCutForestModel.output_after := Some 100;
    TRandomCutForestModel.anomaly_rate := None;
    TRandomCutForestModel.z_factor := None;
    TRandomCutForestModel.score_differencing := None;
    TRandomCutForestModel.ignore_delta_threshold := None;
    TRandomCutForestModel.sample_size := Some 100 |} in
  exists c,
    TRandomCutForestModel.__init__ kw = Normal c /\
    In (ThresholdedRandomCutForest.initialAcceptFraction Float.lit_1_0)
       (TRandomCutForestModel.built_from c).
Proof.
  intros kw.
  assert (H : exists c x, TRandomCutForestModel.__init__ kw = Normal c /\
                          In (ThresholdedRandomCutForest.initialAcceptFraction x)
                             (TRandomCutForestModel.built_from c)).
  { eexists. eexists. split; [vm_compute; reflexivity|].
    cbn [TRandomCutForestModel.built_from]. do 11 right. left. reflexivity. }
  destruct H as (c & x & Hc & Hin). exists c. split; [exact Hc|].
  rewrite <- (initial_accept_fraction_one kw c x eq_refl ltac:(cbn; lia) Hc Hin).
  exact Hin.
Defined.
